(** * simpletable: HTML tables from Python lists

    A shallow embedding of [simpletable.py] (cell, row, table, page) and the
    properties of its construction and serialization.

    The module is Python 2 code.  Its classes never reassign an attribute
    after [__init__], so a class instance is modelled as a value that carries
    its attributes; Python [list] objects are mutable and shared (a row keeps
    the very list it was given, and [add_cell] appends to it), so they live
    in a heap and values refer to them by location.  [HTMLPage.save] writes
    [str(self)] to a file through [codecs.open]; the files are a map from
    names to contents, and what the operating system and the codecs decide
    is a parameter of its model. *)

From Stdlib Require Import Ascii ZArith.
From stdpp Require Import base list strings pretty relations gmap.

(** ** Strings *)

(** The newline and the double quote, as one-character strings. *)
Definition nl : string := String "010"%char "".
Definition dq : string := String "034"%char "".

(** [sep.join(l)] *)
Fixpoint join (sep : string) (l : list string) : string :=
  match l with
  | [] => ""
  | [s] => s
  | s :: rest => s +:+ sep +:+ join sep rest
  end.

(** ** Python values *)

(** Locations of list objects. *)
Abbreviation loc := nat (only parsing).

#[warnings="-register-all"]
Inductive value : Type :=
| VNone
| VBool (b : bool)
| VInt (z : Z)
| VStr (s : string)
| VTuple (vs : list value)
| VList (l : loc)                          (* a list object, by location *)
| VCell (text header : value)              (* HTMLTableCell instance *)
| VRow (cells header : value)              (* HTMLTableRow instance *)
| VTable (rows header_row css_class : value) (* HTMLTable instance *)
| VPage (table css encoding : value).      (* HTMLPage instance *)

Inductive exn := IndexError | TypeError | AttributeError | NameError.

(** How a call ends: it returns, it raises, it is still running when the
    step budget is spent, or it leaves the fragment of Python modelled here
    ([str] of a list or of a tuple goes through [repr]). *)
Inductive outcome (A : Type) : Type :=
| Ok (a : A)
| Raise (e : exn)
| OutOfFuel
| Unmodelled.
Arguments Ok {A} a.
Arguments Raise {A} e.
Arguments OutOfFuel {A}.
Arguments Unmodelled {A}.

(** The interpreter state: the list objects, and the module-level name
    [table], the only global the module's code reads. *)
Record state := State {
  heap : list (list value);
  g_table : option value
}.

(** ** The state-and-exception monad *)

Definition M (A : Type) : Type := state -> outcome A * state.

Definition ret {A} (a : A) : M A := fun st => (Ok a, st).

Definition bind {A B} (m : M A) (k : A -> M B) : M B :=
  fun st =>
    match m st with
    | (Ok a, st') => k a st'
    | (Raise e, st') => (Raise e, st')
    | (OutOfFuel, st') => (OutOfFuel, st')
    | (Unmodelled, st') => (Unmodelled, st')
    end.

Definition raise {A} (e : exn) : M A := fun st => (Raise e, st).
Definition unmodelled {A} : M A := fun st => (Unmodelled, st).
Definition lift {A} (o : outcome A) : M A := fun st => (o, st).

Declare Scope py_scope.
Delimit Scope py_scope with py.
Notation "x <- c1 ;; c2" := (bind c1 (fun x => c2))
  (at level 100, c1 at next level, right associativity) : py_scope.
Notation "'ifM' c 'then' a 'else' b" := (bind c (fun t : bool => if t then a else b))
  (at level 100, c at next level, right associativity) : py_scope.
Open Scope py_scope.

(** ** Built-in operations *)

(** The items of the list object at [l] (no items for a dangling location,
    which no run creates). *)
Definition list_items (h : list (list value)) (l : loc) : list value :=
  default [] (h !! l).

(** [[]] or a list display: a fresh list object. *)
Definition alloc (xs : list value) : M value :=
  fun st => (Ok (VList (length (heap st))),
             State (heap st ++ [xs]) (g_table st)).

(** The characters of a [str], each a [str] of length one. *)
Definition chars (s : string) : list value :=
  (fun c => VStr (String c "")) <$> String.list_ascii_of_string s.

(** Truth value testing.  The four classes define neither [__nonzero__]
    nor [__len__], so their instances are always true. *)
Definition truthy (h : list (list value)) (v : value) : bool :=
  match v with
  | VNone => false
  | VBool b => b
  | VInt z => negb (Z.eqb z 0)
  | VStr s => negb (String.eqb s "")
  | VTuple vs => match vs with [] => false | _ => true end
  | VList l => match list_items h l with [] => false | _ => true end
  | VCell _ _ | VRow _ _ | VTable _ _ _ | VPage _ _ _ => true
  end.

Definition py_bool (v : value) : M bool :=
  fun st => (Ok (truthy (heap st) v), st).

(** [v[0]] *)
Definition py_getitem0 (v : value) : M value :=
  fun st =>
    match v with
    | VList l =>
        match list_items (heap st) l with
        | x :: _ => (Ok x, st)
        | [] => (Raise IndexError, st)
        end
    | VTuple vs =>
        match vs with
        | x :: _ => (Ok x, st)
        | [] => (Raise IndexError, st)
        end
    | VStr s =>
        match chars s with
        | x :: _ => (Ok x, st)
        | [] => (Raise IndexError, st)
        end
    | _ => (Raise TypeError, st)
    end.

(** [target.append(x)]: only list objects have the method. *)
Definition py_append (target x : value) : M unit :=
  fun st =>
    match target with
    | VList l =>
        (Ok tt, State (<[l := list_items (heap st) l ++ [x]]> (heap st))
                      (g_table st))
    | _ => (Raise AttributeError, st)
    end.

(** Reading the global name [table]. *)
Definition global_table : M value :=
  fun st =>
    match g_table st with
    | Some v => (Ok v, st)
    | None => (Raise NameError, st)
    end.

(** *** Iteration

    A list iterator holds the list and an index and reads the list afresh
    at every step, so it sees what the loop body appends; tuples and strings
    are immutable.  Iterating a row or a table runs its [__iter__], a
    generator that loops over [self.cells] (resp. [self.rows]). *)
Inductive cursor :=
| CList (l : loc) (i : nat)
| CItems (xs : list value).

Fixpoint py_iter (v : value) : outcome cursor :=
  match v with
  | VList l => Ok (CList l 0)
  | VTuple vs => Ok (CItems vs)
  | VStr s => Ok (CItems (chars s))
  | VRow cells _ => py_iter cells
  | VTable rows _ _ => py_iter rows
  | _ => Raise TypeError
  end.

Definition cursor_next (h : list (list value)) (c : cursor)
  : option (value * cursor) :=
  match c with
  | CList l i =>
      match list_items h l !! i with
      | Some x => Some (x, CList l (S i))
      | None => None
      end
  | CItems xs =>
      match xs with
      | x :: xs' => Some (x, CItems xs')
      | [] => None
      end
  end.

(** The loop [for x in <cursor>: a = body(a, x)], the local variables the
    body updates being threaded as [a]. *)
Fixpoint py_loop {A} (fuel : nat) (c : cursor) (body : A -> value -> M A)
  (a : A) : M A :=
  fun st =>
    match fuel with
    | 0 => (OutOfFuel, st)
    | S fuel' =>
        match cursor_next (heap st) c with
        | None => (Ok a, st)
        | Some (x, c') => bind (body a x) (py_loop fuel' c' body) st
        end
    end.

(** [for x in v: ...] *)
Definition py_for {A} (fuel : nat) (v : value) (body : A -> value -> M A)
  (a : A) : M A :=
  c <- lift (py_iter v) ;; py_loop fuel c body a.

(** [(pre + '%s' + post) % v].  A tuple on the right of [%] is the argument
    list, so it must have exactly one item; anything else is the single
    argument.  [%s] converts the argument with [str]. *)
Definition format_arg (v : value) : outcome value :=
  match v with
  | VTuple [x] => Ok x
  | VTuple _ => Raise TypeError
  | _ => Ok v
  end.

Definition py_format (str : value -> M string) (pre post : string)
  (v : value) : M string :=
  x <- lift (format_arg v) ;;
  s <- str x ;;
  ret (pre +:+ s +:+ post).

(** ** The classes

    A method that converts something to text takes [str], the interpreter's
    [str()], which is defined after the classes because it calls their
    [__str__] back; a method that loops takes a step budget [fuel].  The
    lists that [__str__] builds and joins ([row], [table], [page]) are local
    and never escape, so they are plain lists here; the list a constructor
    builds by comprehension becomes a list object once it is complete. *)

Module HTMLTableCell.

Definition __init__ (text header : value) : M value :=
  ret (VCell text header).

Definition __str__ (str : value -> M string) (self : value) : M string :=
  match self with
  | VCell text header =>
      ifM py_bool header
      then py_format str "<th>" "</th>" text
      else py_format str "<td>" "</td>" text
  | _ => raise TypeError
  end.

End HTMLTableCell.

Definition isinstance_HTMLTableCell (v : value) : bool :=
  match v with VCell _ _ => true | _ => false end.

Module HTMLTableRow.

(** The default of the parameter [cells] is one list object, made when the
    [def] is executed and shared by all calls. *)
Definition default_cells : loc := 0.

Definition __init__ (fuel : nat) (cells header : value) : M value :=
  c0 <- py_getitem0 cells ;;
  if isinstance_HTMLTableCell c0 then
    ret (VRow cells header)
  else
    new <- py_for fuel cells
             (fun acc cell =>
                c <- HTMLTableCell.__init__ cell header ;;
                ret (acc ++ [c]))
             [] ;;
    cells' <- alloc new ;;
    ret (VRow cells' header).

Definition __str__ (fuel : nat) (str : value -> M string) (self : value)
  : M string :=
  match self with
  | VRow cells _ =>
      let row := ["<tr>"] in
      row <- py_for fuel cells
               (fun row cell => s <- str cell ;; ret (row ++ [s]))
               row ;;
      let row := row ++ ["</tr>"] in
      ret (join nl row)
  | _ => raise TypeError
  end.

(** A generator over [self.cells]; it is what [py_iter] runs when a row is
    iterated. *)
Definition __iter__ (self : value) : outcome cursor :=
  match self with
  | VRow cells _ => py_iter cells
  | _ => Raise TypeError
  end.

Definition add_cell (self cell : value) : M unit :=
  match self with
  | VRow cells _ => py_append cells cell
  | _ => raise TypeError
  end.

Definition add_cells (fuel : nat) (self cells : value) : M unit :=
  match self with
  | VRow self_cells _ =>
      py_for fuel cells (fun _ cell => py_append self_cells cell) tt
  | _ => raise TypeError
  end.

End HTMLTableRow.

Definition isinstance_HTMLTableRow (v : value) : bool :=
  match v with VRow _ _ => true | _ => false end.

Module HTMLTable.

Definition default_rows : loc := 1.

Definition __init__ (fuel : nat) (rows header_row css_class : value)
  : M value :=
  r0 <- py_getitem0 rows ;;
  self_rows <-
    (if isinstance_HTMLTableRow r0 then ret rows
     else
       new <- py_for fuel rows
                (fun acc row =>
                   r <- HTMLTableRow.__init__ fuel row (VBool false) ;;
                   ret (acc ++ [r]))
                [] ;;
       alloc new) ;;
  self_header_row <-
    match header_row with
    | VNone => ret VNone
    | VRow _ _ => ret header_row
    | _ => HTMLTableRow.__init__ fuel header_row (VBool true)
    end ;;
  ret (VTable self_rows self_header_row css_class).

Definition __str__ (fuel : nat) (str : value -> M string) (self : value)
  : M string :=
  match self with
  | VTable rows header_row css_class =>
      table <-
        (ifM py_bool css_class
         then s <- py_format str "<table class=" ">" css_class ;; ret [s]
         else ret ["<table>"]) ;;
      table <-
        (ifM py_bool header_row
         then s <- str header_row ;; ret (table ++ [s])
         else ret table) ;;
      table <- py_for fuel rows
                 (fun table row => s <- str row ;; ret (table ++ [s]))
                 table ;;
      let table := table ++ ["</table>"] in
      ret (join nl table)
  | _ => raise TypeError
  end.

(** A generator over [self.rows]; the header row is not part of it. *)
Definition __iter__ (self : value) : outcome cursor :=
  match self with
  | VTable rows _ _ => py_iter rows
  | _ => Raise TypeError
  end.

Definition add_row (self row : value) : M unit :=
  match self with
  | VTable rows _ _ => py_append rows row
  | _ => raise TypeError
  end.

Definition add_rows (fuel : nat) (self rows : value) : M unit :=
  match self with
  | VTable self_rows _ _ =>
      py_for fuel rows (fun _ row => py_append self_rows row) tt
  | _ => raise TypeError
  end.

End HTMLTable.

Module HTMLPage.

Definition __init__ (table css encoding : value) : M value :=
  ret (VPage table css encoding).

(** The last step reads the name [table], which is not an attribute of
    [self] but a module-level name. *)
Definition __str__ (str : value -> M string) (self : value) : M string :=
  match self with
  | VPage self_table self_css self_encoding =>
      page <-
        (ifM py_bool self_css
         then s <- py_format str
                     ("<style type=" +:+ dq +:+ "text/css" +:+ dq +:+ ">"
                        +:+ nl)
                     (nl +:+ "</style>") self_css ;;
              ret [s]
         else ret []) ;;
      s <- py_format str
             ("<meta http-equiv=" +:+ dq +:+ "Content-Type" +:+ dq
                +:+ " content=" +:+ dq +:+ "text/html;" +:+ "charset=")
             (dq +:+ ">") self_encoding ;;
      let page := page ++ [s] in
      page <-
        (ifM py_bool self_table
         then table <- global_table ;;
              s <- str table ;;
              ret (page ++ [s])
         else ret page) ;;
      ret (join nl page)
  | _ => raise TypeError
  end.

End HTMLPage.

(** [str(v)], for the built-in types by the interpreter and for the four
    classes by their [__str__]. *)
Fixpoint py_str (fuel : nat) (v : value) : M string :=
  match fuel with
  | 0 => lift OutOfFuel
  | S fuel' =>
      match v with
      | VNone => ret "None"
      | VBool true => ret "True"
      | VBool false => ret "False"
      | VInt z => ret (pretty z)
      | VStr s => ret s
      | VTuple _ | VList _ => unmodelled
      | VCell _ _ => HTMLTableCell.__str__ (py_str fuel') v
      | VRow _ _ => HTMLTableRow.__str__ fuel' (py_str fuel') v
      | VTable _ _ _ => HTMLTable.__str__ fuel' (py_str fuel') v
      | VPage _ _ _ => HTMLPage.__str__ (py_str fuel') v
      end
  end.

(** ** Calls with defaulted parameters *)

(** The state once the module is imported: the two default lists exist
    and are empty, and no global [table] is bound (the module binds that
    name only when it runs as a script). *)
Definition module_state : state := State [[]; []] None.

(** [HTMLTableRow(...)] with [cells] and [header] given or left out. *)
Definition HTMLTableRow_call (fuel : nat) (cells header : option value)
  : M value :=
  HTMLTableRow.__init__ fuel
    (default (VList HTMLTableRow.default_cells) cells)
    (default (VBool false) header).

(** [HTMLTable(...)] with each parameter given or left out. *)
Definition HTMLTable_call (fuel : nat) (rows header_row css_class : option value)
  : M value :=
  HTMLTable.__init__ fuel
    (default (VList HTMLTable.default_rows) rows)
    (default VNone header_row)
    (default VNone css_class).

(** What iterating over [v] yields in heap [h], when nothing is appended
    meanwhile. *)
Definition items (h : list (list value)) (v : value) : option (list value) :=
  match py_iter v with
  | Ok (CList l _) => Some (list_items h l)
  | Ok (CItems xs) => Some xs
  | _ => None
  end.

(** The loop body run over a fixed sequence of items. *)
Fixpoint mfold {A} (body : A -> value -> M A) (xs : list value) (a : A) : M A :=
  match xs with
  | [] => ret a
  | x :: xs' => a' <- body a x ;; mfold body xs' a'
  end.

(** A computation that leaves the state as it found it. *)
Definition readonly {A} (m : M A) : Prop := forall st, snd (m st) = st.

(** * Notions used in the statements *)

(** [m2] ends as [m1] does wherever [m1] ends within its budget. *)
Definition extends {A} (m1 m2 : M A) : Prop :=
  forall st, fst (m1 st) <> OutOfFuel -> m2 st = m1 st.

(** The text of the values [str] converts by itself. *)
Definition plain_text (v : value) : option string :=
  match v with
  | VNone => Some "None"
  | VBool true => Some "True"
  | VBool false => Some "False"
  | VInt z => Some (pretty z)
  | VStr s => Some s
  | _ => None
  end.

(** [%s] formats [x] as [s]. *)
Definition formats (fuel : nat) (st : state) (x : value) (s : string) : Prop :=
  exists a, format_arg x = Ok a /\ py_str fuel a st = (Ok s, st).

(** A cell element. *)
Definition cell_tag (header : bool) (s : string) : string :=
  if header then "<th>" +:+ s +:+ "</th>" else "<td>" +:+ s +:+ "</td>".

(** The items of an indexable built-in sequence. *)
Definition seq_items (h : list (list value)) (v : value) : option (list value) :=
  match v with
  | VList l => Some (list_items h l)
  | VTuple vs => Some vs
  | VStr s => Some (chars s)
  | _ => None
  end.

(** The opening tag of a table. *)
Definition open_tag (fuel : nat) (css_class : value) : M string :=
  ifM py_bool css_class
  then py_format (py_str fuel) "<table class=" ">" css_class
  else ret "<table>".

(** The header line of a table, if it has one. *)
Definition header_lines (fuel : nat) (header_row : value) : M (list string) :=
  ifM py_bool header_row
  then s <- py_str fuel header_row ;; ret [s]
  else ret [].

(** [st'] has the list objects of [st], unchanged, and maybe new ones. *)
Definition heap_ext (st st' : state) : Prop :=
  (exists new, heap st' = heap st ++ new) /\ g_table st' = g_table st.

(** [table = v] at module level, as the script part of the module does. *)
Definition assign_table (v : value) : M unit :=
  fun st => (Ok tt, State (heap st) (Some v)).

(** [HTMLTable([['a','b'],['c','d']], header_row=['X','Y'],
    css_class=css_class)] *)
Definition example_table (fuel : nat) (css_class : value) : M value :=
  r1 <- alloc [VStr "a"; VStr "b"] ;;
  r2 <- alloc [VStr "c"; VStr "d"] ;;
  rows <- alloc [r1; r2] ;;
  header_row <- alloc [VStr "X"; VStr "Y"] ;;
  HTMLTable.__init__ fuel rows header_row css_class.

(** [str(HTMLTable([['a','b'],['c','d']], header_row=['X','Y'],
    css_class='t'))] *)
Definition table_scenario (fuel : nat) : M string :=
  t <- example_table fuel (VStr "t") ;;
  py_str fuel t.

(** [str(HTMLPage(table=None, css=None, encoding="utf-8"))] *)
Definition page_scenario (fuel : nat) : M string :=
  page <- HTMLPage.__init__ VNone VNone (VStr "utf-8") ;;
  py_str fuel page.

(** [str(HTMLPage(HTMLTable([['a']])))], the page having a table of its
    own. *)
Definition own_table_page (fuel : nat) : M string :=
  r <- alloc [VStr "a"] ;;
  rows <- alloc [r] ;;
  own <- HTMLTable.__init__ fuel rows VNone VNone ;;
  page <- HTMLPage.__init__ own VNone (VStr "utf-8") ;;
  py_str fuel page.

(** The same after [table = HTMLTable([['z']])] at module level. *)
Definition other_table_then_page (fuel : nat) : M string :=
  r <- alloc [VStr "z"] ;;
  rows <- alloc [r] ;;
  other <- HTMLTable.__init__ fuel rows VNone VNone ;;
  _ <- assign_table other ;;
  own_table_page fuel.

(** The content-type line of a page. *)
Definition meta_line (encoding : string) : string :=
  "<meta http-equiv=" +:+ dq +:+ "Content-Type" +:+ dq +:+ " content=" +:+ dq
    +:+ "text/html;charset=" +:+ encoding +:+ dq +:+ ">".

(** [str(HTMLTableRow([()]))]: a row of one raw value, the empty tuple. *)
Definition row_of_empty_tuple (fuel : nat) : M string :=
  v <- alloc [VTuple []] ;;
  row <- HTMLTableRow.__init__ fuel v (VBool false) ;;
  py_str fuel row.

(** The list object that iterating over [v] reads, if it reads one. *)
Definition reads_list (v : value) : option nat :=
  match py_iter v with
  | Ok (CList l _) => Some l
  | _ => None
  end.

(** [HTMLTableRow((HTMLTableCell('a'),)).add_cell(HTMLTableCell('b'))]: the
    row is built from a tuple of cells. *)
Definition add_cell_to_tuple_row : M unit :=
  row <- HTMLTableRow.__init__ 3 (VTuple [VCell (VStr "a") (VBool false)])
           (VBool false) ;;
  HTMLTableRow.add_cell row (VCell (VStr "b") (VBool false)).

(** [cells = [HTMLTableCell('a')]; row = HTMLTableRow(cells);
    row.add_cells(cells)]: the row is given its own list. *)
Definition add_own_cells (fuel : nat) : M unit :=
  cells <- alloc [VCell (VStr "a") (VBool false)] ;;
  row <- HTMLTableRow.__init__ fuel cells (VBool false) ;;
  HTMLTableRow.add_cells fuel row cells.

Definition one_cell_state : state :=
  State [[]; []; [VCell (VStr "a") (VBool false)]] None.

(** A computation that only adds list objects, however it ends. *)
Definition grows {A} (m : M A) : Prop :=
  forall st, heap_ext st (snd (m st)).

(** The opening tag for a style class that is a string or [None]. *)
Definition class_tag (css_class : value) : string :=
  match css_class with
  | VStr c => if String.eqb c "" then "<table>" else "<table class=" +:+ c +:+ ">"
  | _ => "<table>"
  end.

(** [t], in state [st], is a table with style class [css_class] that has a
    header row and a first row, and it serializes to its opening tag, the
    text of its header row, the text of its first row and then of its other
    rows, and [</table>], with a newline between any two. *)
Definition header_first (css_class t : value) (st : state) : Prop :=
  exists rows H R Rs,
    t = VTable rows H css_class
    /\ isinstance_HTMLTableRow H = true
    /\ items (heap st) rows = Some (R :: Rs)
    /\ forall n sH sR ss,
         length (R :: Rs) < n ->
         py_str n H st = (Ok sH, st) ->
         py_str n R st = (Ok sR, st) ->
         Forall2 (fun x s => py_str n x st = (Ok s, st)) Rs ss ->
         py_str (S n) t st
         = (Ok (class_tag css_class +:+ nl +:+ sH +:+ nl +:+ sR +:+ nl
                  +:+ join nl (ss ++ ["</table>"])),
            st).

(** [str(HTMLTable([['a','b'],['c','d']], header_row=['X','Y'],
    css_class=''))] *)
Definition empty_class_scenario (fuel : nat) : M string :=
  t <- example_table fuel (VStr "") ;;
  py_str fuel t.

Definition example_lists : state :=
  State [[]; []; [VStr "a"; VStr "b"]; [VStr "c"; VStr "d"];
         [VList 2; VList 3]; [VStr "X"; VStr "Y"]] None.

(** [v] holds no reference to either default list. *)
Fixpoint foreign (v : value) : bool :=
  match v with
  | VList l =>
      negb (l =? HTMLTableRow.default_cells)
      && negb (l =? HTMLTable.default_rows)
  | VTuple vs => forallb foreign vs
  | VCell a b | VRow a b => foreign a && foreign b
  | VTable a b c | VPage a b c => foreign a && foreign b && foreign c
  | _ => true
  end.

(** An argument that is given is foreign. *)
Definition foreign_arg (a : option value) : Prop :=
  forall v, a = Some v -> foreign v = true.

(** The default lists are empty and nothing refers to them. *)
Definition defaults_hidden (st : state) : Prop :=
  heap st !! HTMLTableRow.default_cells = Some []
  /\ heap st !! HTMLTable.default_rows = Some []
  /\ Forall (Forall (fun x => foreign x = true)) (heap st)
  /\ (forall v, g_table st = Some v -> foreign v = true).

(** One step of a program that uses the module: it makes a list, stores
    into a list of its own, binds the global [table], or calls the module,
    always with values that do not refer to the default lists (it has no way
    to get hold of one that does, see [keeps] below). *)
Inductive client_step : state -> state -> Prop :=
| cs_list xs st :
    Forall (fun x => foreign x = true) xs ->
    client_step st (snd (alloc xs st))
| cs_store l xs st :
    foreign (VList l) = true ->
    Forall (fun x => foreign x = true) xs ->
    client_step st (State (<[l := xs]> (heap st)) (g_table st))
| cs_assign v st :
    foreign v = true ->
    client_step st (snd (assign_table v st))
| cs_row fuel cells header st :
    foreign_arg cells -> foreign_arg header ->
    client_step st (snd (HTMLTableRow_call fuel cells header st))
| cs_table fuel rows header_row css_class st :
    foreign_arg rows -> foreign_arg header_row -> foreign_arg css_class ->
    client_step st (snd (HTMLTable_call fuel rows header_row css_class st))
| cs_add_cell self cell st :
    foreign self = true -> foreign cell = true ->
    client_step st (snd (HTMLTableRow.add_cell self cell st))
| cs_add_cells fuel self cells st :
    foreign self = true -> foreign cells = true ->
    client_step st (snd (HTMLTableRow.add_cells fuel self cells st))
| cs_add_row self row st :
    foreign self = true -> foreign row = true ->
    client_step st (snd (HTMLTable.add_row self row st))
| cs_add_rows fuel self rows st :
    foreign self = true -> foreign rows = true ->
    client_step st (snd (HTMLTable.add_rows fuel self rows st))
| cs_str fuel v st :
    client_step st (snd (py_str fuel v st)).

(** The states a program can reach once the module is imported. *)
Definition reachable (st : state) : Prop := rtc client_step module_state st.

(** [m] keeps the default lists hidden, and what it returns satisfies [Q]. *)
Definition keeps {A} (m : M A) (Q : A -> Prop) : Prop :=
  forall st, defaults_hidden st ->
    defaults_hidden (snd (m st)) /\ forall a, fst (m st) = Ok a -> Q a.

Abbreviation all_foreign := (Forall (fun x => foreign x = true)).

(** A cursor whose items are foreign, whatever list object it reads. *)
Definition cursor_foreign (c : cursor) : Prop :=
  match c with
  | CList _ _ => True
  | CItems xs => all_foreign xs
  end.

(** The element of a cell in [st]: [<th>] or [<td>], by the truth of the
    cell's flag, around the text that [%s] makes of the cell's text, and
    nothing more. *)
Definition cell_element (st : state) (x : value) (line : string) : Prop :=
  exists text header t,
    x = VCell text header
    /\ (exists k, formats k st text t)
    /\ line = cell_tag (truthy (heap st) header) t.

(** The lines of a row of cells in [st]: [<tr>], the element of each of
    its cells, in order, and [</tr>]. *)
Definition row_element (st : state) (R : value) (lines : list string) : Prop :=
  exists cells header xs ls,
    R = VRow cells header
    /\ items (heap st) cells = Some xs
    /\ Forall2 (cell_element st) xs ls
    /\ lines = "<tr>" :: ls ++ ["</tr>"].

(** [v] is a row object whose cells are cell objects. *)
Definition cell_row (h : list (list value)) (v : value) : Prop :=
  exists cells header xs,
    v = VRow cells header
    /\ items h cells = Some xs
    /\ Forall (fun x => isinstance_HTMLTableCell x = true) xs.


(** ** More of the module: iteration by a caller, and [HTMLPage.save] *)

(** [[x for x in v]], the items a caller gets when it iterates over [v]. *)
Definition py_items (fuel : nat) (v : value) : M (list value) :=
  py_for fuel v (fun acc x => ret (acc ++ [x])) [].

(** What [codecs.open] and the file object need from outside the module:
    which paths can be opened for writing, and the stream writer of each
    codec.  A stream writer turns the chunk it is given into the data it
    writes, knowing the chunks written before, or raises a Unicode error. *)
Definition writer : Type := list string -> string -> option string.

Record platform := Platform {
  can_open : string -> bool;
  codecs_lookup : string -> option writer
}.

Inductive io_exn := IOError | LookupError | UnicodeError | EncodingTypeError.

(** How [save] ends: it returns, [codecs.open] or a [write] raises, or
    [str(self)] does not return, and then ends as [o]. *)
Inductive save_outcome :=
| Saved
| Failed (e : io_exn)
| NotSerialized (o : outcome string).

(** The files, by name, with what they hold. *)
Abbreviation files := (gmap string string).

(** The writer that [codecs.open] wraps around the file: none for the
    encoding [None] (the file itself takes the chunks as they are), the
    codec's for an encoding name. *)
Definition open_writer (p : platform) (encoding : value) : io_exn + writer :=
  match encoding with
  | VNone => inr (fun _ chunk => Some chunk)
  | VStr e =>
      match codecs_lookup p e with
      | Some w => inr w
      | None => inl LookupError
      end
  | _ => inl EncodingTypeError
  end.

(** The chunks of [for line in s]: the characters of [s]. *)
Definition chunks (s : string) : list string :=
  (fun c => String c "") <$> String.list_ascii_of_string s.

(** [for line in ...: outfile.write(line)]: the data written, and whether
    every write went through. *)
Fixpoint write_chunks (w : writer) (done cs : list string) (data : string)
  : string * bool :=
  match cs with
  | [] => (data, true)
  | c :: cs' =>
      match w done c with
      | Some d => write_chunks w (done ++ [c]) cs' (data +:+ d)
      | None => (data, false)
      end
  end.

(** [HTMLPage.save]: the file is opened for writing, which empties it,
    then the page is serialized, then its text is written one character at a
    time; leaving the [with] block closes the file on every path. *)
Definition HTMLPage_save (p : platform) (fuel : nat) (self : value)
  (filename : string) (fs : files) (st : state)
  : save_outcome * files * state :=
  match self with
  | VPage _ _ encoding =>
      if can_open p filename then
        let fs1 := <[filename := ""]> fs in
        match open_writer p encoding with
        | inl e => (Failed e, fs1, st)
        | inr w =>
            match py_str fuel self st with
            | (Ok s, st') =>
                let '(data, ok) := write_chunks w [] (chunks s) "" in
                (if ok then Saved else Failed UnicodeError,
                 <[filename := data]> fs1, st')
            | (o, st') => (NotSerialized o, fs1, st')
            end
        end
      else (Failed IOError, fs, st)
  | _ => (NotSerialized (Raise TypeError), fs, st)
  end.

(** ** Expected markup *)

(** A row element with the given cell texts. *)
Definition render_row (header : bool) (texts : list string) : string :=
  join nl ("<tr>" :: (cell_tag header <$> texts) ++ ["</tr>"]).

(** A table element with the given header texts, if any, and row texts. *)
Definition render_table (css_class : value) (header : option (list string))
  (rows : list (list string)) : string :=
  join nl (class_tag css_class
             :: match header with
                | Some hs => [render_row true hs]
                | None => []
                end
             ++ (render_row false <$> rows) ++ ["</table>"]).

(** The style block of a page. *)
Definition style_block (css : string) : string :=
  "<style type=" +:+ dq +:+ "text/css" +:+ dq +:+ ">" +:+ nl +:+ css +:+ nl
    +:+ "</style>".

(** The values that are the raw items [xs], each wrapped in a cell. *)
Definition wrap (header : value) (xs : list value) : list value :=
  (fun c => VCell c header) <$> xs.

(** [R] is a row whose cells are a list object that holds [xs] wrapped in
    cells with the flag [h]. *)
Definition wraps (st : state) (h : bool) (R : value) (xs : list value) : Prop :=
  exists l, R = VRow (VList l) (VBool h)
            /\ heap st !! l = Some (wrap (VBool h) xs).

(** A header argument and the texts it stands for: none for [None], the
    texts of its items for a non-empty sequence of plain values. *)
Definition header_texts (st : state) (header_row : value)
  (hts : option (list string)) (bound : nat) : Prop :=
  (header_row = VNone /\ hts = None)
  \/ (exists hs ts, seq_items (heap st) header_row = Some hs
                    /\ hs <> [] /\ length hs < bound
                    /\ Forall2 (fun x s => plain_text x = Some s) hs ts
                    /\ hts = Some ts).

(** The lines a page puts before its content-type line: its style block
    when its style sheet is a non-empty string. *)
Definition style_lines (css : value) : list string :=
  match css with
  | VStr c => if String.eqb c "" then [] else [style_block c]
  | _ => []
  end.

(** ** Notions used in the further properties *)

(** A raw row: a sequence whose items are [xs], not empty, not starting
    with a cell, short enough for the budget. *)
Definition raw_row (fuel : nat) (st : state) (r : value) (xs : list value)
  : Prop :=
  seq_items (heap st) r = Some xs
  /\ (exists x xs', xs = x :: xs' /\ isinstance_HTMLTableCell x = false)
  /\ length xs < fuel.

(** A row the constructor cannot take: not indexable, or empty. *)
Definition bad_row (st : state) (r : value) (e : exn) : Prop :=
  (seq_items (heap st) r = None /\ e = TypeError)
  \/ (seq_items (heap st) r = Some [] /\ e = IndexError
      /\ forall l, r = VList l -> l < length (heap st)).

(** A cell with a plain text, and its element. *)
Definition plain_cell (c : value) (s : string) : Prop :=
  exists v b t,
    c = VCell v (VBool b) /\ plain_text v = Some t /\ s = cell_tag b t.

(** * Properties *)

(** ** The monad *)

Lemma bind_ok {A B} (m : M A) (k : A -> M B) st a st' :
  m st = (Ok a, st') -> bind m k st = k a st'.
Proof. intros H. unfold bind. now rewrite H. Qed.

Lemma bind_ok_inv {A B} (m : M A) (k : A -> M B) st b st2 :
  bind m k st = (Ok b, st2) ->
  exists a st1, m st = (Ok a, st1) /\ k a st1 = (Ok b, st2).
Proof.
  unfold bind. destruct (m st) as [[a| | |] st1]; intros H; try discriminate.
  eauto.
Qed.

Lemma bind_ext {A B} (m : M A) (k1 k2 : A -> M B) st :
  (forall a st', m st = (Ok a, st') -> k1 a st' = k2 a st') ->
  bind m k1 st = bind m k2 st.
Proof.
  intros H. unfold bind. destruct (m st) as [[a| | |] st1]; auto.
Qed.

Lemma py_iter_row cells header :
  py_iter (VRow cells header) = HTMLTableRow.__iter__ (VRow cells header).
Proof. reflexivity. Qed.

Lemma py_iter_table rows header_row css_class :
  py_iter (VTable rows header_row css_class)
  = HTMLTable.__iter__ (VTable rows header_row css_class).
Proof. reflexivity. Qed.

(** ** Read-only computations *)

Lemma readonly_ret {A} (a : A) : readonly (ret a).
Proof. now intros st. Qed.

Lemma readonly_raise {A} e : readonly (@raise A e).
Proof. now intros st. Qed.

Lemma readonly_lift {A} (o : outcome A) : readonly (lift o).
Proof. now intros st. Qed.

Lemma readonly_bind {A B} (m : M A) (k : A -> M B) :
  readonly m -> (forall a, readonly (k a)) -> readonly (bind m k).
Proof.
  intros Hm Hk st. unfold bind. specialize (Hm st).
  destruct (m st) as [[a| | |] st1]; simpl in Hm; subst; auto.
  apply Hk.
Qed.

Lemma readonly_py_bool v : readonly (py_bool v).
Proof. now intros st. Qed.

Lemma readonly_py_getitem0 v : readonly (py_getitem0 v).
Proof.
  intros st. unfold py_getitem0.
  destruct v as [| | | |vs|l| | | |]; simpl; auto.
  - now destruct (chars s).
  - now destruct vs.
  - now destruct (list_items (heap st) l).
Qed.

Lemma readonly_global_table : readonly global_table.
Proof. intros st. unfold global_table. now destruct (g_table st). Qed.

Lemma readonly_py_loop {A} (body : A -> value -> M A) :
  (forall a x, readonly (body a x)) ->
  forall fuel c a, readonly (py_loop fuel c body a).
Proof.
  intros Hb fuel. induction fuel as [|fuel IH]; intros c a st; simpl; auto.
  destruct (cursor_next (heap st) c) as [[x c']|]; auto.
  apply readonly_bind; auto.
Qed.

Lemma readonly_py_for {A} (body : A -> value -> M A) fuel v a :
  (forall a x, readonly (body a x)) -> readonly (py_for fuel v body a).
Proof.
  intros Hb. unfold py_for. apply readonly_bind.
  - apply readonly_lift.
  - intros c. now apply readonly_py_loop.
Qed.

Lemma readonly_py_format str pre post v :
  (forall x, readonly (str x)) -> readonly (py_format str pre post v).
Proof.
  intros Hs. unfold py_format.
  auto using readonly_bind, readonly_lift, readonly_ret.
Qed.

Create HintDb readonly.
#[local] Hint Resolve readonly_ret readonly_raise readonly_lift readonly_bind
  readonly_py_bool readonly_py_getitem0 readonly_global_table
  readonly_py_for readonly_py_format : readonly.

Lemma readonly_cell_str str self :
  (forall x, readonly (str x)) -> readonly (HTMLTableCell.__str__ str self).
Proof.
  intros Hs. destruct self; simpl; auto with readonly.
  apply readonly_bind; auto with readonly.
  intros [|]; auto with readonly.
Qed.

Lemma readonly_row_str fuel str self :
  (forall x, readonly (str x)) -> readonly (HTMLTableRow.__str__ fuel str self).
Proof.
  intros Hs. destruct self; simpl; auto with readonly.
Qed.

Lemma readonly_table_str fuel str self :
  (forall x, readonly (str x)) -> readonly (HTMLTable.__str__ fuel str self).
Proof.
  intros Hs. destruct self; simpl; auto with readonly.
  apply readonly_bind.
  - apply readonly_bind; auto with readonly. intros [|]; auto with readonly.
  - intros t1. apply readonly_bind; auto with readonly.
    apply readonly_bind; auto with readonly. intros [|]; auto with readonly.
Qed.

Lemma readonly_page_str str self :
  (forall x, readonly (str x)) -> readonly (HTMLPage.__str__ str self).
Proof.
  intros Hs. destruct self; simpl; auto with readonly.
  apply readonly_bind.
  - apply readonly_bind; auto with readonly. intros [|]; auto with readonly.
  - intros p1. apply readonly_bind; auto with readonly.
    intros s. apply readonly_bind; auto with readonly.
    apply readonly_bind; auto with readonly. intros [|]; auto with readonly.
Qed.

(** Serialization reads the state and never writes it. *)
Lemma readonly_py_str fuel : forall v, readonly (py_str fuel v).
Proof.
  induction fuel as [|fuel IH]; intros v.
  - apply readonly_lift.
  - destruct v as [|[|]| | | | | | | |]; cbn [py_str];
      auto using readonly_ret, readonly_cell_str, readonly_row_str,
        readonly_table_str, readonly_page_str.
    all: now intros st.
Qed.

(** ** Loops over a sequence that the body leaves alone *)

Lemma py_loop_items {A} (body : A -> value -> M A) xs :
  forall fuel a st, length xs < fuel ->
    py_loop fuel (CItems xs) body a st = mfold body xs a st.
Proof.
  induction xs as [|x xs IH]; intros [|fuel] a st Hf; simpl in *; try lia; auto.
  apply bind_ext. intros a' st' _. apply IH. lia.
Qed.

Lemma py_loop_list {A} (P : state -> Prop) (body : A -> value -> M A) l xs :
  (forall st, P st -> list_items (heap st) l = xs) ->
  (forall a x st, P st -> P (snd (body a x st))) ->
  forall fuel i a st, P st -> length xs - i < fuel ->
    py_loop fuel (CList l i) body a st = mfold body (drop i xs) a st.
Proof.
  intros HP Hbody. induction fuel as [|fuel IH]; intros i a st Hst Hf; [lia|].
  simpl. rewrite (HP st Hst).
  destruct (xs !! i) as [x|] eqn:Hx.
  - rewrite (drop_S _ _ _ Hx). simpl.
    apply bind_ext. intros a' st' Hb. apply IH.
    + specialize (Hbody a x st Hst). now rewrite Hb in Hbody.
    + apply lookup_lt_Some in Hx. lia.
  - apply lookup_ge_None in Hx. now rewrite drop_ge.
Qed.

Lemma py_for_snapshot {A} (P : state -> Prop) (body : A -> value -> M A) v xs :
  (forall st, P st -> items (heap st) v = Some xs) ->
  (forall a x st, P st -> P (snd (body a x st))) ->
  forall fuel a st, P st -> length xs < fuel ->
    py_for fuel v body a st = mfold body xs a st.
Proof.
  intros HP Hbody fuel a st Hst Hf. unfold py_for, items in *.
  destruct (py_iter v) as [[l i|ys]| | |] eqn:Hv;
    try (specialize (HP st Hst); discriminate).
  - assert (i = 0) as ->.
    { clear -Hv. induction v; simpl in Hv; try discriminate; auto.
      now injection Hv. }
    unfold bind, lift. rewrite (py_loop_list P body l xs); auto.
    + intros st' Hst'. specialize (HP st' Hst'). now injection HP.
    + lia.
  - specialize (HP st Hst). injection HP as ->.
    unfold bind, lift. now apply py_loop_items.
Qed.

Lemma py_for_readonly {A} (body : A -> value -> M A) v xs fuel a st :
  (forall a x, readonly (body a x)) ->
  items (heap st) v = Some xs -> length xs < fuel ->
  py_for fuel v body a st = mfold body xs a st.
Proof.
  intros Hb Hv Hf.
  apply (py_for_snapshot (fun st' => st' = st)); auto.
  - now intros st' ->.
  - intros a' x st' ->. apply Hb.
Qed.

Lemma py_for_not_iterable {A} (body : A -> value -> M A) v fuel a st :
  items (heap st) v = None -> py_for fuel v body a st = (Raise TypeError, st).
Proof.
  unfold items, py_for, bind, lift. intros H.
  assert (Hi : py_iter v = Raise TypeError \/ exists c, py_iter v = Ok c).
  { clear. induction v; simpl; eauto. }
  destruct Hi as [->|[c Hc]]; auto.
  rewrite Hc in H. now destruct c.
Qed.

(** A loop that appends [f x] for each item [x]. *)
Lemma mfold_collect {A} (f : value -> M A) xs ys st :
  Forall2 (fun x y => f x st = (Ok y, st)) xs ys ->
  forall acc,
    mfold (fun acc x => y <- f x ;; ret (acc ++ [y])) xs acc st
    = (Ok (acc ++ ys), st).
Proof.
  induction 1 as [|x y xs ys Hx _ IH]; intros acc; simpl.
  - now rewrite app_nil_r.
  - unfold bind at 1. unfold bind at 1. rewrite Hx. unfold ret at 1.
    rewrite IH. now rewrite <- app_assoc.
Qed.

(** ** A larger budget does not change a finished run *)

Lemma extends_refl {A} (m : M A) : extends m m.
Proof. now intros st _. Qed.

Lemma extends_run {A} (m1 m2 : M A) st o :
  extends m1 m2 -> fst (m1 st) = o -> o <> OutOfFuel -> fst (m2 st) = o.
Proof. intros He <- Hne. now rewrite He. Qed.

Lemma extends_bind {A B} (m1 m2 : M A) (k1 k2 : A -> M B) :
  extends m1 m2 -> (forall a, extends (k1 a) (k2 a)) ->
  extends (bind m1 k1) (bind m2 k2).
Proof.
  intros Hm Hk st. unfold bind. specialize (Hm st).
  destruct (m1 st) as [[a| | |] st1]; simpl in *; intros H;
    try (rewrite Hm by discriminate; auto); try congruence.
  now apply Hk.
Qed.

Lemma extends_if {A} (b : bool) (m1 m2 n1 n2 : M A) :
  extends m1 m2 -> extends n1 n2 ->
  extends (if b then m1 else n1) (if b then m2 else n2).
Proof. now destruct b. Qed.

Lemma extends_py_loop {A} (b1 b2 : A -> value -> M A) :
  (forall a x, extends (b1 a x) (b2 a x)) ->
  forall n m c a, n <= m -> extends (py_loop n c b1 a) (py_loop m c b2 a).
Proof.
  intros Hb. induction n as [|n IH]; intros m c a Hnm st; simpl.
  - congruence.
  - destruct m as [|m]; [lia|]. simpl.
    destruct (cursor_next (heap st) c) as [[x c']|]; auto.
    apply extends_bind; auto. intros a'. apply IH. lia.
Qed.

Lemma extends_py_for {A} (b1 b2 : A -> value -> M A) n m v a :
  (forall a x, extends (b1 a x) (b2 a x)) -> n <= m ->
  extends (py_for n v b1 a) (py_for m v b2 a).
Proof.
  intros Hb Hnm. unfold py_for. apply extends_bind.
  - apply extends_refl.
  - intros c. now apply extends_py_loop.
Qed.

Lemma extends_py_format s1 s2 pre post v :
  (forall x, extends (s1 x) (s2 x)) ->
  extends (py_format s1 pre post v) (py_format s2 pre post v).
Proof.
  intros Hs. unfold py_format.
  auto using extends_bind, extends_refl.
Qed.

Create HintDb extends.
#[local] Hint Resolve extends_refl extends_bind extends_if extends_py_for
  extends_py_format : extends.

Lemma extends_cell_str s1 s2 self :
  (forall x, extends (s1 x) (s2 x)) ->
  extends (HTMLTableCell.__str__ s1 self) (HTMLTableCell.__str__ s2 self).
Proof.
  intros Hs. destruct self; simpl; auto with extends.
Qed.

Lemma extends_row_str n m s1 s2 self :
  (forall x, extends (s1 x) (s2 x)) -> n <= m ->
  extends (HTMLTableRow.__str__ n s1 self) (HTMLTableRow.__str__ m s2 self).
Proof.
  intros Hs Hnm. destruct self; simpl; auto 6 with extends.
Qed.

Lemma extends_table_str n m s1 s2 self :
  (forall x, extends (s1 x) (s2 x)) -> n <= m ->
  extends (HTMLTable.__str__ n s1 self) (HTMLTable.__str__ m s2 self).
Proof.
  intros Hs Hnm. destruct self; simpl; auto with extends.
  apply extends_bind; [auto 6 with extends|]. intros t1.
  apply extends_bind; [auto 6 with extends|]. intros t2.
  auto 6 with extends.
Qed.

Lemma extends_page_str s1 s2 self :
  (forall x, extends (s1 x) (s2 x)) ->
  extends (HTMLPage.__str__ s1 self) (HTMLPage.__str__ s2 self).
Proof.
  intros Hs. destruct self; simpl; auto with extends.
  apply extends_bind; [auto 6 with extends|]. intros p1.
  apply extends_bind; [auto 6 with extends|]. intros s.
  apply extends_bind; [auto 8 with extends|]. intros p2.
  auto with extends.
Qed.

Lemma extends_py_str n : forall m v, n <= m -> extends (py_str n v) (py_str m v).
Proof.
  induction n as [|n IH]; intros m v Hnm.
  - intros st H. now contradiction H.
  - destruct m as [|m]; [lia|]. assert (n <= m) by lia.
    destruct v as [|[|]| | | | | | | |]; cbn [py_str];
      auto using extends_refl, extends_cell_str, extends_row_str,
        extends_table_str, extends_page_str.
Qed.

Lemma extends_row_init n m cells header :
  n <= m ->
  extends (HTMLTableRow.__init__ n cells header)
          (HTMLTableRow.__init__ m cells header).
Proof.
  intros Hnm. unfold HTMLTableRow.__init__. auto 8 with extends.
Qed.

Lemma extends_table_init n m rows header_row css_class :
  n <= m ->
  extends (HTMLTable.__init__ n rows header_row css_class)
          (HTMLTable.__init__ m rows header_row css_class).
Proof.
  intros Hnm. unfold HTMLTable.__init__.
  apply extends_bind; [apply extends_refl|]. intros r0.
  apply extends_bind.
  - apply extends_if; [apply extends_refl|].
    apply extends_bind; [|intros; apply extends_refl].
    apply extends_py_for; [|assumption]. intros acc row.
    apply extends_bind; [|intros; apply extends_refl].
    now apply extends_row_init.
  - intros rows'. apply extends_bind; [|intros; apply extends_refl].
    destruct header_row; auto using extends_row_init, extends_refl.
Qed.

Lemma extends_add_cells n m self cells :
  n <= m ->
  extends (HTMLTableRow.add_cells n self cells)
          (HTMLTableRow.add_cells m self cells).
Proof. intros Hnm. destruct self; simpl; auto with extends. Qed.

Lemma extends_add_rows n m self rows :
  n <= m ->
  extends (HTMLTable.add_rows n self rows) (HTMLTable.add_rows m self rows).
Proof. intros Hnm. destruct self; simpl; auto with extends. Qed.

(** ** What the [__str__] methods return *)

Lemma py_str_plain fuel v s st :
  plain_text v = Some s -> py_str (S fuel) v st = (Ok s, st).
Proof.
  destruct v as [|[|]| | | | | | | |]; simpl; intros H; try discriminate;
    now injection H as <-.
Qed.

Lemma format_arg_plain v s : plain_text v = Some s -> format_arg v = Ok v.
Proof. destruct v; simpl; auto; discriminate. Qed.

Lemma formats_plain fuel st v s :
  plain_text v = Some s -> formats (S fuel) st v s.
Proof.
  intros H. exists v. split.
  - eapply format_arg_plain; eauto.
  - now apply py_str_plain.
Qed.

Lemma py_str_ok fuel v st s st' :
  py_str fuel v st = (Ok s, st') -> st' = st.
Proof.
  intros H. pose proof (readonly_py_str fuel v st) as Hr.
  rewrite H in Hr. auto.
Qed.

Lemma py_format_spec fuel pre post x s st :
  formats fuel st x s ->
  py_format (py_str fuel) pre post x st = (Ok (pre +:+ s +:+ post), st).
Proof.
  intros (a & Ha & Hs). unfold py_format, bind, lift. now rewrite Ha, Hs.
Qed.

Lemma cell_str_spec fuel text header s st :
  formats fuel st text s ->
  py_str (S fuel) (VCell text header) st
  = (Ok (cell_tag (truthy (heap st) header) s), st).
Proof.
  intros H. cbn [py_str]. unfold HTMLTableCell.__str__, bind at 1, py_bool.
  unfold cell_tag. destruct (truthy (heap st) header);
    now apply py_format_spec.
Qed.

Lemma seq_items_items h v xs : seq_items h v = Some xs -> items h v = Some xs.
Proof. destruct v; simpl; try discriminate; auto. Qed.

Lemma py_getitem0_seq_items v st :
  py_getitem0 v st =
  (match seq_items (heap st) v with
   | Some (x :: _) => Ok x
   | Some [] => Raise IndexError
   | None => Raise TypeError
   end, st).
Proof.
  destruct v as [| | | |vs|l| | | |]; simpl; auto.
  - now destruct (chars s).
  - now destruct vs.
  - now destruct (list_items (heap st) l).
Qed.

(** A loop that appends the text of each item. *)
Lemma py_for_collect {A} (f : value -> M A) fuel v xs ys acc st :
  (forall x, readonly (f x)) ->
  items (heap st) v = Some xs ->
  Forall2 (fun x y => f x st = (Ok y, st)) xs ys ->
  length xs < fuel ->
  py_for fuel v (fun acc x => y <- f x ;; ret (acc ++ [y])) acc st
  = (Ok (acc ++ ys), st).
Proof.
  intros Hf Hi Hs Hlen. rewrite (py_for_readonly _ v xs); auto.
  - now apply mfold_collect.
  - intros a x. apply readonly_bind; auto using readonly_ret.
Qed.

(** A row is [<tr>], its cells' texts, [</tr>], one per line. *)
Lemma row_str_spec fuel cells header st xs ss :
  items (heap st) cells = Some xs ->
  Forall2 (fun x s => py_str fuel x st = (Ok s, st)) xs ss ->
  length xs < fuel ->
  py_str (S fuel) (VRow cells header) st
  = (Ok (join nl ("<tr>" :: ss ++ ["</tr>"])), st).
Proof.
  intros Hi Hs Hf. cbn [py_str]. unfold HTMLTableRow.__str__.
  rewrite (bind_ok _ _ st (["<tr>"] ++ ss) st); [reflexivity|].
  apply (py_for_collect _ _ _ xs); auto using readonly_py_str.
Qed.

(** A table is its opening tag, its header row if any, its rows and
    [</table>], one per line. *)
Lemma table_str_spec fuel rows header_row css_class st o hs xs ss :
  open_tag fuel css_class st = (Ok o, st) ->
  header_lines fuel header_row st = (Ok hs, st) ->
  items (heap st) rows = Some xs ->
  Forall2 (fun x s => py_str fuel x st = (Ok s, st)) xs ss ->
  length xs < fuel ->
  py_str (S fuel) (VTable rows header_row css_class) st
  = (Ok (join nl (o :: hs ++ ss ++ ["</table>"])), st).
Proof.
  intros Ho Hh Hi Hs Hf. cbn [py_str]. unfold HTMLTable.__str__.
  rewrite (bind_ok _ _ st [o] st).
  2: { revert Ho. unfold open_tag, bind, py_bool.
       destruct (truthy (heap st) css_class); [|now intros [= <-]].
       destruct (py_format _ _ _ _ st) as [[o'| | |] st1]; try discriminate.
       now intros [= <- <-]. }
  rewrite (bind_ok _ _ st ([o] ++ hs) st).
  2: { revert Hh. unfold header_lines, bind, py_bool.
       destruct (truthy (heap st) header_row);
         [|intros [= <-]; now rewrite app_nil_r].
       destruct (py_str fuel header_row st) as [[h| | |] st1];
         try discriminate.
       now intros [= <- <-]. }
  rewrite (bind_ok _ _ st (([o] ++ hs) ++ ss) st).
  2: { apply (py_for_collect _ _ _ xs); auto using readonly_py_str. }
  unfold ret. now rewrite <- !app_assoc.
Qed.

(** ** What the constructors return *)

Lemma heap_ext_refl st : heap_ext st st.
Proof. split; auto. exists []. now rewrite app_nil_r. Qed.

Lemma heap_ext_trans st1 st2 st3 :
  heap_ext st1 st2 -> heap_ext st2 st3 -> heap_ext st1 st3.
Proof.
  intros [[n1 H1] G1] [[n2 H2] G2]. split; [|congruence].
  exists (n1 ++ n2). rewrite H2, H1. now rewrite app_assoc.
Qed.

Lemma heap_ext_lookup st st' l xs :
  heap_ext st st' -> heap st !! l = Some xs -> heap st' !! l = Some xs.
Proof. intros [[new ->] _] H. now apply lookup_app_l_Some. Qed.

(** A sequence that has items keeps them when list objects are added. *)
Lemma heap_ext_seq_items st st' v x xs :
  heap_ext st st' ->
  seq_items (heap st) v = Some (x :: xs) ->
  seq_items (heap st') v = Some (x :: xs).
Proof.
  intros Hext. destruct v as [| | | | |l| | | |]; simpl; auto.
  unfold list_items. destruct (heap st !! l) as [ys|] eqn:Hl; simpl.
  - intros H. now rewrite (heap_ext_lookup _ _ _ _ Hext Hl).
  - discriminate.
Qed.

Lemma heap_ext_alloc xs st : heap_ext st (snd (alloc xs st)).
Proof. split; simpl; eauto. Qed.

(** The row built from cells keeps the sequence it was given. *)
Lemma row_init_cells fuel cells header st c0 xs :
  seq_items (heap st) cells = Some (c0 :: xs) ->
  isinstance_HTMLTableCell c0 = true ->
  HTMLTableRow.__init__ fuel cells header st = (Ok (VRow cells header), st).
Proof.
  intros He Hc. unfold HTMLTableRow.__init__, bind at 1.
  rewrite py_getitem0_seq_items, He. now rewrite Hc.
Qed.

(** The row built from other values wraps each in a cell that has the
    row's header flag, in a new list. *)
Lemma row_init_raw fuel cells header st x xs :
  seq_items (heap st) cells = Some (x :: xs) ->
  isinstance_HTMLTableCell x = false ->
  length (x :: xs) < fuel ->
  HTMLTableRow.__init__ fuel cells header st
  = (Ok (VRow (VList (length (heap st))) header),
     State (heap st ++ [(fun c => VCell c header) <$> (x :: xs)])
           (g_table st)).
Proof.
  intros He Hx Hf. unfold HTMLTableRow.__init__, bind at 1.
  rewrite py_getitem0_seq_items, He, Hx.
  unfold bind at 1. rewrite (py_for_readonly _ cells (x :: xs)); auto.
  - rewrite (mfold_collect (fun c => HTMLTableCell.__init__ c header)
               (x :: xs) ((fun c => VCell c header) <$> (x :: xs))).
    + reflexivity.
    + clear. induction (x :: xs); constructor; auto.
  - intros a y. apply readonly_bind; intros; apply readonly_ret.
  - now apply seq_items_items.
Qed.

(** Whatever its outcome, the row constructor only adds list objects. *)
Lemma row_init_heap_ext fuel cells header st :
  heap_ext st (snd (HTMLTableRow.__init__ fuel cells header st)).
Proof.
  unfold HTMLTableRow.__init__, bind at 1.
  rewrite py_getitem0_seq_items.
  destruct (seq_items (heap st) cells) as [[|x xs]|]; simpl;
    auto using heap_ext_refl.
  destruct (isinstance_HTMLTableCell x); simpl; auto using heap_ext_refl.
  unfold bind at 1.
  assert (Hro : readonly (py_for fuel cells
            (fun acc cell => c <- HTMLTableCell.__init__ cell header ;;
                             ret (acc ++ [c])) [])).
  { apply readonly_py_for. intros a y.
    apply readonly_bind; intros; apply readonly_ret. }
  specialize (Hro st). destruct (py_for _ _ _ _ st) as [[new| | |] st1];
    simpl in Hro; subst st1; simpl; auto using heap_ext_refl.
  apply heap_ext_alloc.
Qed.

(** A row that was constructed has at least one cell. *)
Lemma row_init_nonempty fuel cells header st row st' :
  HTMLTableRow.__init__ fuel cells header st = (Ok row, st') ->
  exists cells' c cs,
    row = VRow cells' header /\ items (heap st') cells' = Some (c :: cs).
Proof.
  intros H.
  assert (He : exists x xs, seq_items (heap st) cells = Some (x :: xs)).
  { revert H. unfold HTMLTableRow.__init__, bind at 1.
    rewrite py_getitem0_seq_items.
    destruct (seq_items (heap st) cells) as [[|x xs]|]; try discriminate.
    eauto. }
  destruct He as (x & xs & He).
  destruct (isinstance_HTMLTableCell x) eqn:Hx.
  - rewrite (row_init_cells _ _ _ _ x xs) in H by auto.
    injection H as <- <-. exists cells, x, xs. split; auto.
    now apply seq_items_items.
  - pose proof (extends_row_init fuel (fuel + S (length (x :: xs)))
                  cells header ltac:(lia) st) as Hm.
    rewrite H in Hm. specialize (Hm ltac:(discriminate)).
    rewrite row_init_raw with (x := x) (xs := xs) in Hm by (auto; lia).
    injection Hm as <- <-. eexists _, _, _. split; eauto.
    unfold items, list_items. simpl.
    now rewrite lookup_app_r, Nat.sub_diag by lia.
Qed.

(** ** Scenarios *)

Lemma extends_example_table n m css_class :
  n <= m -> extends (example_table n css_class) (example_table m css_class).
Proof.
  intros Hnm. unfold example_table.
  do 4 (apply extends_bind; [apply extends_refl|intros ?]).
  now apply extends_table_init.
Qed.

(** C4.  [HTMLTable([['a','b'],['c','d']], header_row=['X','Y'],
    css_class='t')] serializes to the fourteen lines of the scenario: the
    opening tag with [class=t], the header row with [th] cells, the two body
    rows with [td] cells, each tag on a line of its own, and the closing
    tag; with any step budget of five or more. *)
Theorem table_scenario_output : forall k,
  fst (table_scenario (5 + k) module_state) = Ok "<table class=t>
<tr>
<th>X</th>
<th>Y</th>
</tr>
<tr>
<td>a</td>
<td>b</td>
</tr>
<tr>
<td>c</td>
<td>d</td>
</tr>
</table>".
Proof.
  intros k.
  assert (He : extends (table_scenario 5) (table_scenario (5 + k))).
  { unfold table_scenario. apply extends_bind.
    - apply extends_example_table. lia.
    - intros t. apply extends_py_str. lia. }
  apply (extends_run _ _ _ _ He); [vm_compute; reflexivity|discriminate].
Qed.

(** C9.  [HTMLPage(table=None, css=None, encoding="utf-8")] serializes to
    the content-type meta tag that declares utf-8 and to nothing else: no
    style block, no table, no further line. *)
Theorem page_scenario_output : forall k st,
  page_scenario (2 + k) st
  = (Ok ("<meta http-equiv=" +:+ dq +:+ "Content-Type" +:+ dq +:+ " content="
           +:+ dq +:+ "text/html;charset=utf-8" +:+ dq +:+ ">"),
     st).
Proof. intros k st. reflexivity. Qed.

(** C7.  Serializing any value twice in a row, in particular a cell, a row,
    a table or a page, ends the same way both times: the first call leaves
    the state (the list objects and the global name) exactly as it found it,
    so the second call sees what the first one saw. *)
Theorem serialize_twice : forall fuel v st,
  let first := py_str fuel v st in
  let second := py_str fuel v (snd first) in
  snd first = st /\ fst second = fst first /\ snd second = st.
Proof.
  intros fuel v st first second.
  assert (H1 : snd first = st) by apply readonly_py_str.
  subst second. rewrite H1. auto.
Qed.

(** C2.  [HTMLTableRow([])] and [HTMLTable([])] raise [IndexError]: no
    object is returned, and nothing but the empty list that was passed has
    been created. *)
Theorem empty_sequence_rejected : forall fuel header header_row css_class st,
  (e <- alloc [] ;; HTMLTableRow.__init__ fuel e header) st
  = (Raise IndexError, State (heap st ++ [[]]) (g_table st))
  /\
  (e <- alloc [] ;; HTMLTable.__init__ fuel e header_row css_class) st
  = (Raise IndexError, State (heap st ++ [[]]) (g_table st)).
Proof.
  intros fuel header header_row css_class st.
  unfold HTMLTableRow.__init__, HTMLTable.__init__, bind, alloc, py_getitem0.
  simpl. unfold list_items.
  rewrite lookup_app_r, Nat.sub_diag by lia. simpl. auto.
Qed.

Lemma extends_own_table_page n m :
  n <= m -> extends (own_table_page n) (own_table_page m).
Proof.
  intros Hnm. unfold own_table_page.
  do 2 (apply extends_bind; [apply extends_refl|intros ?]).
  apply extends_bind; [now apply extends_table_init|intros ?].
  apply extends_bind; [apply extends_refl|intros ?].
  now apply extends_py_str.
Qed.

Lemma extends_other_table_then_page n m :
  n <= m -> extends (other_table_then_page n) (other_table_then_page m).
Proof.
  intros Hnm. unfold other_table_then_page.
  do 2 (apply extends_bind; [apply extends_refl|intros ?]).
  apply extends_bind; [now apply extends_table_init|intros ?].
  apply extends_bind; [apply extends_refl|intros ?].
  now apply extends_own_table_page.
Qed.

(** C1.  What the code does where the claim asks for the page's own table:
    [HTMLPage.__str__] converts the module-level name [table], not
    [self.table].  A page that owns the table [[['a']]] raises [NameError]
    when no such global is bound, and once [table = HTMLTable([['z']])] has
    run at module level it prints that other table, never its own. *)
Theorem page_serializes_global_table : forall k,
  fst (own_table_page (5 + k) module_state) = Raise NameError
  /\
  fst (other_table_then_page (5 + k) module_state)
  = Ok (meta_line "utf-8" +:+ nl +:+ "<table>
<tr>
<td>z</td>
</tr>
</table>").
Proof.
  intros k. split.
  - apply (extends_run (own_table_page 5)).
    + apply extends_own_table_page. lia.
    + vm_compute. reflexivity.
    + discriminate.
  - apply (extends_run (other_table_then_page 5)).
    + apply extends_other_table_then_page. lia.
    + vm_compute. reflexivity.
    + discriminate.
Qed.

(** C6, as stated, fails: the empty tuple is a raw value, and serializing
    [HTMLTableRow([()])] raises [TypeError], because the tuple is taken as
    the argument list of the cell's format string. *)
Lemma row_of_tuple_value_raises :
  fst (row_of_empty_tuple 5 module_state) = Raise TypeError.
Proof. vm_compute. reflexivity. Qed.

(** C6, amended.  For a non-empty sequence [v] (list, tuple or string) of
    values that are not cells, each of which [%s] can format (to the texts
    [ss]), and a header flag [h], [HTMLTableRow(v, h)] is built and
    serializes to [<tr>], then exactly [len(v)] cell elements, one per value
    in order, each [<td>text</td>] when [h] is false and [<th>text</th>]
    when it is true, then [</tr>], one per line. *)
Theorem row_of_raw_values : forall fuel st v xs h ss,
  seq_items (heap st) v = Some xs ->
  xs <> [] ->
  Forall (fun x => isinstance_HTMLTableCell x = false) xs ->
  length xs < fuel ->
  Forall2 (formats fuel
             (State (heap st ++ [(fun c => VCell c (VBool h)) <$> xs])
                    (g_table st))) xs ss ->
  exists row st',
    HTMLTableRow.__init__ fuel v (VBool h) st = (Ok row, st')
    /\ py_str (S (S fuel)) row st'
       = (Ok (join nl ("<tr>" :: (cell_tag h <$> ss) ++ ["</tr>"])), st')
    /\ length (cell_tag h <$> ss) = length xs.
Proof.
  intros fuel st v xs h ss He Hne Hraw Hf Hfmt.
  destruct xs as [|x xs]; [congruence|].
  apply Forall_cons in Hraw as [Hx _].
  eexists _, _. split; [|split].
  - apply (row_init_raw fuel v (VBool h) st x xs); auto.
  - apply row_str_spec with (xs := (fun c => VCell c (VBool h)) <$> (x :: xs)).
    + unfold items, list_items. simpl.
      now rewrite lookup_app_r, Nat.sub_diag by lia.
    + apply Forall2_fmap. eapply Forall2_impl; [exact Hfmt|].
      intros y s Hy. exact (cell_str_spec fuel y (VBool h) s _ Hy).
    + rewrite length_fmap. lia.
  - rewrite length_fmap. symmetry. eapply Forall2_length; eauto.
Qed.

Lemma row_of_raw_values_witness :
  exists row st',
    HTMLTableRow.__init__ 3 (VTuple [VStr "a"; VInt 7]) (VBool true)
      module_state = (Ok row, st')
    /\ py_str 5 row st'
       = (Ok (join nl ("<tr>" :: (cell_tag true <$> ["a"; "7"]) ++ ["</tr>"])),
          st')
    /\ length (cell_tag true <$> ["a"; "7"]) = 2.
Proof.
  apply (row_of_raw_values 3 module_state (VTuple [VStr "a"; VInt 7])
           [VStr "a"; VInt 7] true ["a"; "7"]).
  - reflexivity.
  - discriminate.
  - repeat constructor.
  - simpl. lia.
  - repeat constructor; eexists; split; reflexivity.
Defined.

(** ** Appending *)

Lemma state_eta st : State (heap st) (g_table st) = st.
Proof. now destruct st. Qed.

Lemma py_append_spec l xs x st :
  heap st !! l = Some xs ->
  py_append (VList l) x st
  = (Ok tt, State (<[l := xs ++ [x]]> (heap st)) (g_table st)).
Proof. intros H. unfold py_append, list_items. now rewrite H. Qed.

(** Appending the items of a fixed sequence one by one. *)
Lemma mfold_append l ys : forall xs st,
  heap st !! l = Some xs ->
  mfold (fun _ x => py_append (VList l) x) ys tt st
  = (Ok tt, State (<[l := xs ++ ys]> (heap st)) (g_table st)).
Proof.
  induction ys as [|y ys IH]; intros xs st H; simpl.
  - rewrite app_nil_r, list_insert_id by auto. now rewrite state_eta.
  - unfold bind. rewrite (py_append_spec l xs y st H).
    rewrite (IH (xs ++ [y])); simpl.
    + now rewrite list_insert_insert_eq, <- app_assoc.
    + apply list_lookup_insert_eq. now apply lookup_lt_Some in H.
Qed.

(** A loop that appends to the list [l] while it reads another sequence. *)
Lemma py_for_append fuel l src xs ys st :
  heap st !! l = Some xs ->
  items (heap st) src = Some ys ->
  reads_list src <> Some l ->
  length ys < fuel ->
  py_for fuel src (fun _ x => py_append (VList l) x) tt st
  = mfold (fun _ x => py_append (VList l) x) ys tt st.
Proof.
  intros Hl Hs Hne Hf.
  apply (py_for_snapshot (fun st' => items (heap st') src = Some ys)); auto.
  intros [] x st' Hst'. unfold py_append. simpl.
  revert Hst' Hne. unfold items, reads_list.
  destruct (py_iter src) as [[l' i|zs]| | |]; auto.
  intros Hst' Hne. unfold list_items in *.
  rewrite list_lookup_insert_ne by congruence. auto.
Qed.

(** A loop that appends to the list it reads does not end. *)
Lemma py_loop_append_own l : forall fuel i st,
  l < length (heap st) ->
  i < length (list_items (heap st) l) ->
  fst (py_loop fuel (CList l i) (fun _ x => py_append (VList l) x) tt st)
  = OutOfFuel.
Proof.
  induction fuel as [|fuel IH]; intros i st Hl Hi; simpl; auto.
  destruct (list_items (heap st) l !! i) as [x|] eqn:Hx.
  - unfold bind, py_append. apply IH; simpl.
    + now rewrite length_insert.
    + unfold list_items at 1. rewrite list_lookup_insert_eq by auto. simpl.
      rewrite length_app. simpl. lia.
  - apply lookup_ge_None in Hx. lia.
Qed.

(** C8, as stated, fails for a row that keeps a tuple of cells: there
    [add_cell] raises [AttributeError] and nothing is appended.  It fails as
    well for [add_cells] when the row is handed its own list: the loop reads
    what it appends and appends what it reads, whatever the step budget. *)
Lemma add_cell_to_tuple_row_raises :
  add_cell_to_tuple_row module_state = (Raise AttributeError, module_state)
  /\ forall fuel, fst (add_own_cells fuel module_state) = OutOfFuel.
Proof.
  split; [reflexivity|].
  intros fuel. unfold add_own_cells, bind at 1. simpl.
  unfold bind at 1.
  rewrite (row_init_cells fuel _ _ _ (VCell (VStr "a") (VBool false)) [])
    by reflexivity.
  unfold HTMLTableRow.add_cells, py_for, bind, lift. simpl py_iter. cbv iota.
  apply py_loop_append_own; simpl; lia.
Qed.

(** C8, amended.  For a row (resp. table) whose cells (resp. rows) are a
    list object holding [xs]: [add_cell] ([add_row]) returns and the list
    then holds [xs] followed by the new item, every other list object being
    as before; [add_cells] ([add_rows]) with a sequence whose items are [ys],
    and whose iteration does not read that same list object, does what
    [add_cell] ([add_row]) does for each item of [ys] in order, and the list
    then holds [xs] followed by [ys]. *)
Theorem append_to_list_container : forall st l xs x header hr css,
  heap st !! l = Some xs ->
  let grown zs := State (<[l := xs ++ zs]> (heap st)) (g_table st) in
  let row := VRow (VList l) header in
  let table := VTable (VList l) hr css in
  HTMLTableRow.add_cell row x st = (Ok tt, grown [x])
  /\ HTMLTable.add_row table x st = (Ok tt, grown [x])
  /\ (forall zs, heap (grown zs) !! l = Some (xs ++ zs))
  /\ (forall zs l', l' <> l -> heap (grown zs) !! l' = heap st !! l')
  /\ (forall fuel src ys,
        items (heap st) src = Some ys ->
        reads_list src <> Some l ->
        length ys < fuel ->
        HTMLTableRow.add_cells fuel row src st
        = mfold (fun _ c => HTMLTableRow.add_cell row c) ys tt st
        /\ HTMLTable.add_rows fuel table src st
           = mfold (fun _ r => HTMLTable.add_row table r) ys tt st
        /\ HTMLTableRow.add_cells fuel row src st = (Ok tt, grown ys)
        /\ HTMLTable.add_rows fuel table src st = (Ok tt, grown ys)).
Proof.
  intros st l xs x header hr css Hl grown row table.
  split; [now apply py_append_spec|].
  split; [now apply py_append_spec|].
  split.
  { intros zs. simpl. apply list_lookup_insert_eq.
    now apply lookup_lt_Some in Hl. }
  split.
  { intros zs l' Hl'. simpl. now apply list_lookup_insert_ne. }
  intros fuel src ys Hs Hne Hf.
  pose proof (py_for_append fuel l src xs ys st Hl Hs Hne Hf) as Hfor.
  pose proof (mfold_append l ys xs st Hl) as Hall.
  repeat split.
  - exact Hfor.
  - exact Hfor.
  - simpl. now rewrite Hfor.
  - simpl. now rewrite Hfor.
Qed.

Lemma append_to_list_container_witness :
  let a := VCell (VStr "a") (VBool false) in
  let b := VCell (VStr "b") (VBool false) in
  let c := VCell (VStr "c") (VBool false) in
  let row := VRow (VList 2) (VBool false) in
  HTMLTableRow.add_cell row b one_cell_state
  = (Ok tt, State [[]; []; [a; b]] None)
  /\ HTMLTableRow.add_cells 3 row (VTuple [b; c]) one_cell_state
     = (Ok tt, State [[]; []; [a; b; c]] None).
Proof.
  intros a b c row.
  destruct (append_to_list_container one_cell_state 2 [a] b (VBool false)
              VNone VNone eq_refl)
    as (H1 & _ & _ & _ & Hmany).
  destruct (Hmany 3 (VTuple [b; c]) [b; c]) as (_ & _ & H5 & _).
  - reflexivity.
  - discriminate.
  - simpl. lia.
  - split; [exact H1|exact H5].
Defined.

(** ** The table constructor *)

Lemma grows_bind {A B} (m : M A) (k : A -> M B) :
  grows m -> (forall a, grows (k a)) -> grows (bind m k).
Proof.
  intros Hm Hk st. unfold bind. specialize (Hm st).
  destruct (m st) as [[a| | |] st1]; simpl in Hm; auto.
  eapply heap_ext_trans; eauto. apply Hk.
Qed.

Lemma grows_readonly {A} (m : M A) : readonly m -> grows m.
Proof. intros H st. rewrite H. apply heap_ext_refl. Qed.

Lemma grows_row_init fuel cells header :
  grows (HTMLTableRow.__init__ fuel cells header).
Proof. intros st. apply row_init_heap_ext. Qed.

(** What a loop that appends [f x] for each item returned, if it did. *)
Lemma mfold_collect_inv {A} (f : value -> M A) xs :
  forall acc st res st',
    mfold (fun acc x => y <- f x ;; ret (acc ++ [y])) xs acc st = (Ok res, st') ->
    exists ys, res = acc ++ ys /\ length ys = length xs.
Proof.
  induction xs as [|x xs IH]; intros acc st res st' H; simpl in H.
  - injection H as <- <-. exists []. now rewrite app_nil_r.
  - apply bind_ok_inv in H as (a & st1 & Ha & H).
    apply bind_ok_inv in Ha as (y & st2 & Hy & Ha).
    injection Ha as <- <-.
    apply IH in H as (ys & -> & Hlen).
    exists (y :: ys). rewrite <- app_assoc. simpl. auto.
Qed.

(** A table that was constructed keeps the style class it was given, has a
    row object as its header row unless none was given, and has at least one
    row. *)
Lemma table_init_inv fuel rows0 hdr0 css st0 t st :
  HTMLTable.__init__ fuel rows0 hdr0 css st0 = (Ok t, st) ->
  exists rows H R Rs,
    t = VTable rows H css
    /\ items (heap st) rows = Some (R :: Rs)
    /\ (hdr0 = VNone -> H = VNone)
    /\ (hdr0 <> VNone -> isinstance_HTMLTableRow H = true).
Proof.
  intros Hinit. unfold HTMLTable.__init__ in Hinit.
  apply bind_ok_inv in Hinit as (r0 & st0' & Hget & Hinit).
  rewrite py_getitem0_seq_items in Hget.
  destruct (seq_items (heap st0) rows0) as [[|r rest]|] eqn:Hseq;
    try discriminate.
  injection Hget as -> <-.
  apply bind_ok_inv in Hinit as (rows & st2 & Hrows & Hinit).
  apply bind_ok_inv in Hinit as (H & st3 & Hhdr & Hinit).
  injection Hinit as <- <-.
  (* the rows *)
  assert (Hr : exists R Rs, seq_items (heap st2) rows = Some (R :: Rs)).
  { destruct (isinstance_HTMLTableRow r0).
    - injection Hrows as <- <-. eauto.
    - apply bind_ok_inv in Hrows as (new & st1 & Hfor & Halloc).
      injection Halloc as <- <-. simpl. unfold list_items.
      rewrite lookup_app_r, Nat.sub_diag by lia. simpl.
      set (big := fuel + S (length (r0 :: rest))).
      pose proof (extends_py_for
        (fun acc row => r <- HTMLTableRow.__init__ fuel row (VBool false) ;;
                        ret (acc ++ [r]))
        (fun acc row => r <- HTMLTableRow.__init__ big row (VBool false) ;;
                        ret (acc ++ [r]))
        fuel big rows0 []) as Hext.
      rewrite <- Hext in Hfor.
      + rewrite (py_for_snapshot (fun st' => heap_ext st0 st') _ rows0
                   (r0 :: rest)) in Hfor.
        * apply mfold_collect_inv in Hfor as (ys & -> & Hlen).
          destruct ys as [|y ys]; [discriminate|]. simpl. eauto.
        * intros st' Hst'. apply seq_items_items.
          eapply heap_ext_seq_items; eauto.
        * intros a x st' Hst'. eapply heap_ext_trans; eauto.
          apply grows_bind; [apply grows_row_init|].
          intros y. apply grows_readonly, readonly_ret.
        * apply heap_ext_refl.
        * subst big. lia.
      + intros a x. apply extends_bind; [|intros; apply extends_refl].
        apply extends_row_init. subst big. lia.
      + subst big. lia.
      + rewrite Hfor. discriminate. }
  destruct Hr as (R & Rs & Hr).
  (* the header row *)
  assert (Hh : heap_ext st2 st3 /\ (hdr0 = VNone -> H = VNone)
               /\ (hdr0 <> VNone -> isinstance_HTMLTableRow H = true)).
  { assert (Hgen : HTMLTableRow.__init__ fuel hdr0 (VBool true) st2
                   = (Ok H, st3) ->
                   heap_ext st2 st3 /\ isinstance_HTMLTableRow H = true).
    { intros Hi. split.
      - pose proof (row_init_heap_ext fuel hdr0 (VBool true) st2) as He.
        now rewrite Hi in He.
      - apply row_init_nonempty in Hi as (c' & c & cs & -> & _). reflexivity. }
    destruct hdr0;
      try (destruct (Hgen Hhdr) as [? ?];
           split; [assumption|split; intros; [congruence|assumption]]).
    - injection Hhdr as <- <-.
      split; [apply heap_ext_refl|split; intros; simpl; congruence].
    - injection Hhdr as <- <-.
      split; [apply heap_ext_refl|split; intros; simpl; congruence]. }
  destruct Hh as (Hext & Hnone & Hrow).
  exists rows, H, R, Rs. repeat split; auto.
  apply seq_items_items. eapply heap_ext_seq_items; eauto.
Qed.

(** ** The layout of a table *)

Lemma join_cons sep s l :
  l <> [] -> join sep (s :: l) = s +:+ sep +:+ join sep l.
Proof. destruct l; [congruence|reflexivity]. Qed.

Lemma open_tag_class_tag n css_class st :
  css_class = VNone \/ (exists c, css_class = VStr c) ->
  open_tag (S n) css_class st = (Ok (class_tag css_class), st).
Proof.
  intros [->|[c ->]]; [reflexivity|].
  unfold open_tag, bind, py_bool, class_tag. cbn [truthy].
  destruct (String.eqb c ""); cbn [negb]; [reflexivity|].
  apply py_format_spec. now apply formats_plain.
Qed.

(** C3, as stated, fails: a table built with the style class [''] has its
    style class set (it is not [None]), and its opening tag is [<table>],
    without a class attribute. *)
Lemma empty_style_class_not_emitted :
  VStr "" <> VNone
  /\ fst (empty_class_scenario 5 module_state) = Ok "<table>
<tr>
<th>X</th>
<th>Y</th>
</tr>
<tr>
<td>a</td>
<td>b</td>
</tr>
<tr>
<td>c</td>
<td>d</td>
</tr>
</table>".
Proof. split; [discriminate|vm_compute; reflexivity]. Qed.

(** C3, amended.  A table that was built with a header row and with a
    style class that is [None] or a string serializes to its opening tag,
    then a newline and the header row's text, then a newline and the first
    row's text, then the other rows and [</table>]; the opening tag is
    [<table class=C>] when the style class is a non-empty string [C], and
    [<table>] when it is [None] or the empty string. *)
Theorem table_layout : forall fuel rows header_row css_class st0 t st,
  HTMLTable.__init__ fuel rows header_row css_class st0 = (Ok t, st) ->
  header_row <> VNone ->
  css_class = VNone \/ (exists c, css_class = VStr c) ->
  header_first css_class t st.
Proof.
  intros fuel rows0 hdr0 css st0 t st Hinit Hhdr Hcss.
  apply table_init_inv in Hinit as (rows & H & R & Rs & -> & Hitems & _ & HH).
  specialize (HH Hhdr).
  exists rows, H, R, Rs. repeat split; auto.
  intros n sH sR ss Hn HsH HsR Hss.
  destruct n as [|n]; [simpl in Hn; lia|].
  rewrite (table_str_spec (S n) rows H css st (class_tag css) [sH]
             (R :: Rs) (sR :: ss)); auto.
  - simpl app. now rewrite !join_cons by (try discriminate; now destruct ss).
  - now apply open_tag_class_tag.
  - unfold header_lines, bind, py_bool.
    destruct H as [| | | | | | |hc hh| |]; try discriminate.
    cbn [truthy]. now rewrite HsH.
Qed.

Lemma table_layout_witness :
  exists t st,
    HTMLTable.__init__ 5 (VList 4) (VList 5) (VStr "t") example_lists
    = (Ok t, st)
    /\ header_first (VStr "t") t st.
Proof.
  eexists _, _. split.
  - vm_compute. reflexivity.
  - eapply (table_layout 5 (VList 4) (VList 5) (VStr "t") example_lists).
    + vm_compute. reflexivity.
    + discriminate.
    + right. eexists. reflexivity.
Defined.

(** ** The default lists stay empty

    The default of [cells] in [HTMLTableRow.__init__] and the default of
    [rows] in [HTMLTable.__init__] are list objects that live as long as the
    module.  No code outside the two constructors can name them, and the
    constructors never store or return them, so they stay empty. *)

Lemma keeps_ret {A} (a : A) (Q : A -> Prop) : Q a -> keeps (ret a) Q.
Proof. intros H st Hst. split; auto. simpl. now intros ? [= <-]. Qed.

Lemma keeps_raise {A} e (Q : A -> Prop) : keeps (raise e) Q.
Proof. intros st Hst. split; auto. discriminate. Qed.

Lemma keeps_bind {A B} (m : M A) (k : A -> M B) Q R :
  keeps m Q -> (forall a, Q a -> keeps (k a) R) -> keeps (bind m k) R.
Proof.
  intros Hm Hk st Hst. unfold bind. destruct (Hm st Hst) as [H1 H2].
  destruct (m st) as [[a| | |] st1]; simpl in *;
    try (split; [assumption|discriminate]).
  apply Hk; auto.
Qed.

Lemma keeps_weaken {A} (m : M A) (Q R : A -> Prop) :
  keeps m Q -> (forall a, Q a -> R a) -> keeps m R.
Proof.
  intros Hm HQR st Hst. destruct (Hm st Hst) as [H1 H2]. split; auto.
Qed.

Lemma keeps_readonly {A} (m : M A) : readonly m -> keeps m (fun _ => True).
Proof. intros Hm st Hst. rewrite Hm. auto. Qed.

Lemma foreign_tuple vs : foreign (VTuple vs) = true -> all_foreign vs.
Proof.
  simpl. intros H. apply Forall_forall. intros x Hx.
  rewrite forallb_forall in H. apply H. now apply list_elem_of_In.
Qed.

Lemma foreign_chars s : all_foreign (chars s).
Proof. unfold chars. apply Forall_fmap, Forall_forall. now intros. Qed.

Lemma hidden_list_items st l :
  defaults_hidden st -> all_foreign (list_items (heap st) l).
Proof.
  intros (_ & _ & Hh & _). unfold list_items.
  destruct (heap st !! l) as [xs|] eqn:Hl; simpl; [|constructor].
  rewrite Forall_forall in Hh. apply Hh. eapply list_elem_of_lookup_2; eauto.
Qed.

Lemma hidden_length st : defaults_hidden st -> 2 <= length (heap st).
Proof.
  intros (_ & H & _). apply lookup_lt_Some in H.
  unfold HTMLTable.default_rows in H. lia.
Qed.

Lemma keeps_getitem0 v :
  foreign v = true -> keeps (py_getitem0 v) (fun x => foreign x = true).
Proof.
  intros Hv st Hst. rewrite py_getitem0_seq_items. split; auto. simpl.
  assert (Ha : forall xs, seq_items (heap st) v = Some xs -> all_foreign xs).
  { destruct v; simpl; try discriminate; intros xs [= <-].
    - apply foreign_chars.
    - now apply foreign_tuple.
    - now apply hidden_list_items. }
  destruct (seq_items (heap st) v) as [[|x xs]|]; try discriminate.
  intros a [= <-]. specialize (Ha _ eq_refl). now apply Forall_cons in Ha.
Qed.

Lemma keeps_alloc xs :
  all_foreign xs -> keeps (alloc xs) (fun v => foreign v = true).
Proof.
  intros Hxs st Hst. pose proof (hidden_length st Hst) as Hlen.
  destruct Hst as (H0 & H1 & Hh & Hg). split.
  - repeat split; simpl; auto.
    + now apply lookup_app_l_Some.
    + now apply lookup_app_l_Some.
    + apply Forall_app. split; auto.
  - simpl. intros a [= <-]. simpl.
    unfold HTMLTableRow.default_cells, HTMLTable.default_rows.
    destruct (length (heap st)) as [|[|n]]; simpl; auto; lia.
Qed.

Lemma hidden_store st l xs :
  defaults_hidden st -> foreign (VList l) = true -> all_foreign xs ->
  defaults_hidden (State (<[l := xs]> (heap st)) (g_table st)).
Proof.
  intros (H0 & H1 & Hh & Hg) Hl Hxs. simpl in Hl.
  apply andb_true_iff in Hl as [Hl0 Hl1].
  apply negb_true_iff, Nat.eqb_neq in Hl0, Hl1.
  repeat split; simpl; auto.
  - now rewrite list_lookup_insert_ne.
  - now rewrite list_lookup_insert_ne.
  - apply Forall_insert; auto.
Qed.

Lemma keeps_append target x :
  foreign target = true -> foreign x = true ->
  keeps (py_append target x) (fun _ => True).
Proof.
  intros Ht Hx st Hst. split; auto.
  destruct target; simpl; auto.
  apply hidden_store; auto.
  apply Forall_app. split; [now apply hidden_list_items|].
  now repeat constructor.
Qed.

Lemma py_iter_foreign v c :
  foreign v = true -> py_iter v = Ok c -> cursor_foreign c.
Proof.
  induction v; simpl; try discriminate.
  - intros _ [= <-]. apply foreign_chars.
  - intros H [= <-]. now apply foreign_tuple.
  - intros _ [= <-]. exact I.
  - intros H. apply andb_true_iff in H as [H _]. auto.
  - intros H. apply andb_true_iff in H as [H _].
    apply andb_true_iff in H as [H _]. auto.
Qed.

Lemma cursor_next_foreign st c x c' :
  defaults_hidden st -> cursor_foreign c ->
  cursor_next (heap st) c = Some (x, c') ->
  foreign x = true /\ cursor_foreign c'.
Proof.
  intros Hst Hc. destruct c as [l i|xs]; simpl.
  - destruct (list_items (heap st) l !! i) as [y|] eqn:Hy; try discriminate.
    intros [= <- <-]. split; [|exact I].
    pose proof (hidden_list_items st l Hst) as Hall.
    rewrite Forall_forall in Hall. apply Hall.
    eapply list_elem_of_lookup_2; eauto.
  - destruct xs as [|y ys]; try discriminate.
    intros [= <- <-]. now apply Forall_cons in Hc.
Qed.

Lemma keeps_py_loop {A} (body : A -> value -> M A) (Q : A -> Prop) :
  (forall a x, Q a -> foreign x = true -> keeps (body a x) Q) ->
  forall fuel c a, cursor_foreign c -> Q a -> keeps (py_loop fuel c body a) Q.
Proof.
  intros Hb. induction fuel as [|fuel IH]; intros c a Hc Ha st Hst; simpl.
  - split; auto. discriminate.
  - destruct (cursor_next (heap st) c) as [[x c']|] eqn:Hn.
    + destruct (cursor_next_foreign st c x c' Hst Hc Hn) as [Hx Hc'].
      apply (keeps_bind (body a x) _ Q Q); auto.
    + split; auto. simpl. now intros ? [= <-].
Qed.

Lemma keeps_py_for {A} (body : A -> value -> M A) (Q : A -> Prop) fuel v a :
  (forall a x, Q a -> foreign x = true -> keeps (body a x) Q) ->
  foreign v = true -> Q a -> keeps (py_for fuel v body a) Q.
Proof.
  intros Hb Hv Ha. unfold py_for.
  apply (keeps_bind _ _ cursor_foreign).
  - intros st Hst. split; auto. simpl. intros c Hc.
    eapply py_iter_foreign; eauto.
  - intros c Hc. now apply keeps_py_loop.
Qed.

Lemma keeps_row_init fuel cells header :
  foreign cells = true -> foreign header = true ->
  keeps (HTMLTableRow.__init__ fuel cells header) (fun v => foreign v = true).
Proof.
  intros Hc Hh. unfold HTMLTableRow.__init__.
  apply (keeps_bind _ _ (fun x => foreign x = true)).
  { now apply keeps_getitem0. }
  intros c0 Hc0. destruct (isinstance_HTMLTableCell c0).
  - apply keeps_ret. simpl. now rewrite Hc, Hh.
  - apply (keeps_bind _ _ all_foreign).
    + apply keeps_py_for; [|assumption|constructor].
      intros acc x Hacc Hx.
      apply (keeps_bind _ _ (fun v => foreign v = true)).
      * apply keeps_ret. simpl. now rewrite Hx, Hh.
      * intros c Hcf. apply keeps_ret, Forall_app. split; auto.
    + intros new Hnew.
      apply (keeps_bind _ _ (fun v => foreign v = true)).
      * now apply keeps_alloc.
      * intros l Hl. apply keeps_ret. simpl. now rewrite Hl, Hh.
Qed.

Lemma keeps_table_init fuel rows header_row css_class :
  foreign rows = true -> foreign header_row = true ->
  foreign css_class = true ->
  keeps (HTMLTable.__init__ fuel rows header_row css_class)
        (fun v => foreign v = true).
Proof.
  intros Hr Hh Hc. unfold HTMLTable.__init__.
  apply (keeps_bind _ _ (fun x => foreign x = true)).
  { now apply keeps_getitem0. }
  intros r0 Hr0.
  apply (keeps_bind _ _ (fun x => foreign x = true)).
  { destruct (isinstance_HTMLTableRow r0).
    - now apply keeps_ret.
    - apply (keeps_bind _ _ all_foreign).
      + apply keeps_py_for; [|assumption|constructor].
        intros acc x Hacc Hx.
        apply (keeps_bind _ _ (fun v => foreign v = true)).
        * now apply keeps_row_init.
        * intros c Hcf. apply keeps_ret, Forall_app. split; auto.
      + intros new Hnew. now apply keeps_alloc. }
  intros rows' Hrows'.
  apply (keeps_bind _ _ (fun x => foreign x = true)).
  { destruct header_row; try (now apply keeps_ret);
      now apply keeps_row_init. }
  intros hr Hhr. apply keeps_ret. simpl. now rewrite Hrows', Hhr, Hc.
Qed.

Lemma keeps_add_cell self cell :
  foreign self = true -> foreign cell = true ->
  keeps (HTMLTableRow.add_cell self cell) (fun _ => True).
Proof.
  intros Hs Hc. destruct self; simpl; try apply keeps_raise.
  simpl in Hs. apply andb_true_iff in Hs as [Hs _]. now apply keeps_append.
Qed.

Lemma keeps_add_row self row :
  foreign self = true -> foreign row = true ->
  keeps (HTMLTable.add_row self row) (fun _ => True).
Proof.
  intros Hs Hc. destruct self; simpl; try apply keeps_raise.
  simpl in Hs. apply andb_true_iff in Hs as [Hs _].
  apply andb_true_iff in Hs as [Hs _]. now apply keeps_append.
Qed.

Lemma keeps_add_cells fuel self cells :
  foreign self = true -> foreign cells = true ->
  keeps (HTMLTableRow.add_cells fuel self cells) (fun _ => True).
Proof.
  intros Hs Hc. destruct self; simpl; try apply keeps_raise.
  simpl in Hs. apply andb_true_iff in Hs as [Hs _].
  apply keeps_py_for; auto. intros [] x _ Hx. now apply keeps_append.
Qed.

Lemma keeps_add_rows fuel self rows :
  foreign self = true -> foreign rows = true ->
  keeps (HTMLTable.add_rows fuel self rows) (fun _ => True).
Proof.
  intros Hs Hc. destruct self; simpl; try apply keeps_raise.
  simpl in Hs. apply andb_true_iff in Hs as [Hs _].
  apply andb_true_iff in Hs as [Hs _].
  apply keeps_py_for; auto. intros [] x _ Hx. now apply keeps_append.
Qed.

(** With its sequence argument left out, a constructor raises [IndexError]
    and changes nothing, as long as its default list is empty. *)
Lemma row_call_default fuel header st :
  heap st !! HTMLTableRow.default_cells = Some [] ->
  HTMLTableRow_call fuel None header st = (Raise IndexError, st).
Proof.
  intros H. unfold HTMLTableRow_call, HTMLTableRow.__init__, bind.
  rewrite py_getitem0_seq_items. simpl. unfold list_items. now rewrite H.
Qed.

Lemma table_call_default fuel header_row css_class st :
  heap st !! HTMLTable.default_rows = Some [] ->
  HTMLTable_call fuel None header_row css_class st = (Raise IndexError, st).
Proof.
  intros H. unfold HTMLTable_call, HTMLTable.__init__, bind.
  rewrite py_getitem0_seq_items. simpl. unfold list_items. now rewrite H.
Qed.

Lemma hidden_module_state : defaults_hidden module_state.
Proof.
  repeat split; simpl; auto. discriminate.
Qed.

Lemma client_step_hidden st st' :
  client_step st st' -> defaults_hidden st -> defaults_hidden st'.
Proof.
  intros Hstep Hst. destruct Hstep.
  - now apply keeps_alloc.
  - now apply hidden_store.
  - destruct Hst as (H0 & H1 & Hh & Hg). repeat split; simpl; auto.
    now intros ? [= <-].
  - destruct cells as [c|].
    + apply keeps_row_init; auto. destruct header; simpl; auto.
    + rewrite row_call_default; auto. apply Hst.
  - destruct rows as [r|].
    + apply keeps_table_init; auto.
      * destruct header_row; simpl; auto.
      * destruct css_class; simpl; auto.
    + rewrite table_call_default; auto. apply Hst.
  - now apply keeps_add_cell.
  - now apply keeps_add_cells.
  - now apply keeps_add_row.
  - now apply keeps_add_rows.
  - now rewrite readonly_py_str.
Qed.

Lemma reachable_hidden st : reachable st -> defaults_hidden st.
Proof.
  unfold reachable. revert st. apply rtc_ind_r.
  - apply hidden_module_state.
  - intros st st' _ Hstep Hst. eapply client_step_hidden; eauto.
Qed.

(** C10.  In every state that a program using the module can reach, calling
    [HTMLTableRow] or [HTMLTable] without the sequence argument raises
    [IndexError] and changes nothing: the default is a list that is and
    stays empty, and the constructor reads its first item.  And a row or a
    table that a constructor does return has at least one cell, or one row:
    the constructors build no empty container. *)
Theorem omitted_sequence_rejected :
  forall fuel header header_row css_class st,
    reachable st ->
    HTMLTableRow_call fuel None header st = (Raise IndexError, st)
    /\ HTMLTable_call fuel None header_row css_class st
       = (Raise IndexError, st)
    /\ (forall cells row st',
          HTMLTableRow_call fuel cells header st = (Ok row, st') ->
          exists cells' c cs,
            row = VRow cells' (default (VBool false) header)
            /\ items (heap st') cells' = Some (c :: cs))
    /\ (forall rows t st',
          HTMLTable_call fuel rows header_row css_class st = (Ok t, st') ->
          exists rows' hr r rs,
            t = VTable rows' hr (default VNone css_class)
            /\ items (heap st') rows' = Some (r :: rs)).
Proof.
  intros fuel header header_row css_class st Hst.
  apply reachable_hidden in Hst as (H0 & H1 & _).
  split; [|split; [|split]].
  - now apply row_call_default.
  - now apply table_call_default.
  - intros cells row st' H. now apply row_init_nonempty in H.
  - intros rows t st' H.
    apply table_init_inv in H as (rows' & hr & r & rs & -> & Hi & _).
    eauto 6.
Qed.

Lemma omitted_sequence_rejected_witness :
  let st := snd (alloc [VStr "a"] module_state) in
  reachable st
  /\ HTMLTableRow_call 3 None None st = (Raise IndexError, st)
  /\ HTMLTable_call 3 None None None st = (Raise IndexError, st).
Proof.
  intros st.
  assert (Hr : reachable st).
  { apply rtc_once, cs_list. repeat constructor. }
  destruct (omitted_sequence_rejected 3 None None None st Hr)
    as (H1 & H2 & _).
  auto.
Defined.

(** ** The tags of a table *)

Lemma string_app_assoc (a b c : string) : (a +:+ b) +:+ c = a +:+ b +:+ c.
Proof.
  induction a as [|x a IH]; [reflexivity|].
  change (String x ((a +:+ b) +:+ c) = String x (a +:+ b +:+ c)).
  now rewrite IH.
Qed.

Lemma join_app sep l1 l2 :
  l1 <> [] -> l2 <> [] ->
  join sep (l1 ++ l2) = join sep l1 +:+ sep +:+ join sep l2.
Proof.
  intros H1 H2. induction l1 as [|x [|y l1] IH]; [congruence| |].
  - simpl app. now apply join_cons.
  - change ((x :: y :: l1) ++ l2) with (x :: ((y :: l1) ++ l2)).
    rewrite join_cons by discriminate. rewrite IH by discriminate.
    rewrite (join_cons sep x (y :: l1)) by discriminate.
    now rewrite !string_app_assoc.
Qed.

(** Lines that were joined one group at a time are the lines joined at
    once. *)
Lemma join_groups sep z ss lss :
  Forall2 (fun s ls => s = join sep ls /\ ls <> []) ss lss ->
  join sep (ss ++ [z]) = join sep (concat lss ++ [z]).
Proof.
  induction 1 as [|s ls ss lss [-> Hls] _ IH]; [reflexivity|].
  change ((join sep ls :: ss) ++ [z]) with (join sep ls :: (ss ++ [z])).
  change (concat (ls :: lss)) with (ls ++ concat lss).
  rewrite join_cons by (now destruct ss).
  rewrite IH, <- app_assoc. symmetry. apply join_app; auto.
  now destruct (concat lss).
Qed.

(** What a loop that appends [f x] for each item returned, if it did and
    [f] is read-only. *)
Lemma mfold_collect_texts {A} (f : value -> M A) xs :
  (forall x, readonly (f x)) ->
  forall acc st res st',
    mfold (fun acc x => y <- f x ;; ret (acc ++ [y])) xs acc st = (Ok res, st') ->
    st' = st
    /\ exists ys, res = acc ++ ys
                  /\ Forall2 (fun x y => f x st = (Ok y, st)) xs ys.
Proof.
  intros Hf. induction xs as [|x xs IH]; intros acc st res st' H; simpl in H.
  - injection H as <- <-. split; auto. exists []. now rewrite app_nil_r.
  - apply bind_ok_inv in H as (a & st1 & Ha & H).
    apply bind_ok_inv in Ha as (y & st2 & Hy & Ha).
    injection Ha as <- <-.
    pose proof (Hf x st) as Hro. rewrite Hy in Hro. simpl in Hro. subst st2.
    apply IH in H as (-> & ys & -> & Hall). split; auto.
    exists (y :: ys). rewrite <- app_assoc. simpl. auto.
Qed.

Lemma py_for_collect_texts {A} (f : value -> M A) fuel v xs acc st res st' :
  (forall x, readonly (f x)) ->
  items (heap st) v = Some xs ->
  py_for fuel v (fun acc x => y <- f x ;; ret (acc ++ [y])) acc st
  = (Ok res, st') ->
  st' = st
  /\ exists ys, res = acc ++ ys
                /\ Forall2 (fun x y => f x st = (Ok y, st)) xs ys.
Proof.
  intros Hf Hv H.
  pose proof (extends_py_for
    (fun acc x => y <- f x ;; ret (acc ++ [y]))
    (fun acc x => y <- f x ;; ret (acc ++ [y]))
    fuel (fuel + S (length xs)) v acc) as Hext.
  rewrite <- Hext in H.
  - rewrite (py_for_readonly _ v xs) in H; auto.
    + now apply mfold_collect_texts in H.
    + intros a x. apply readonly_bind; auto using readonly_ret.
    + lia.
  - intros a x. apply extends_refl.
  - lia.
  - rewrite H. discriminate.
Qed.

Lemma cell_str_inv fuel x st s st' :
  isinstance_HTMLTableCell x = true ->
  py_str fuel x st = (Ok s, st') ->
  cell_element st x s.
Proof.
  destruct x as [| | | | | |text header| | |]; try discriminate. intros _.
  destruct fuel as [|fuel]; [discriminate|]. cbn [py_str].
  unfold HTMLTableCell.__str__. intros H.
  apply bind_ok_inv in H as (b & st1 & Hb & H).
  unfold py_bool in Hb. injection Hb as <- <-.
  assert (Hfmt : forall pre post,
             py_format (py_str fuel) pre post text st = (Ok s, st') ->
             exists t, formats fuel st text t /\ s = pre +:+ t +:+ post).
  { intros pre post Hp. unfold py_format in Hp.
    apply bind_ok_inv in Hp as (a & st2 & Ha & Hp).
    apply bind_ok_inv in Hp as (t & st3 & Ht & Hp).
    injection Hp as <- _.
    unfold lift in Ha. injection Ha as Ha <-.
    pose proof (py_str_ok _ _ _ _ _ Ht) as ->.
    exists t. split; [|reflexivity]. exists a. auto. }
  exists text, header.
  destruct (truthy (heap st) header); apply Hfmt in H as (t & Ht & ->);
    exists t; eauto.
Qed.

Lemma row_str_inv fuel R st s st' :
  cell_row (heap st) R ->
  py_str fuel R st = (Ok s, st') ->
  exists lines, row_element st R lines /\ s = join nl lines.
Proof.
  intros (cells & header & xs & -> & Hi & Hcells).
  destruct fuel as [|fuel]; [discriminate|]. cbn [py_str].
  unfold HTMLTableRow.__str__. intros H.
  apply bind_ok_inv in H as (row & st1 & Hfor & H). injection H as <- _.
  apply (py_for_collect_texts (py_str fuel) fuel cells xs) in Hfor
    as (_ & ys & -> & Hys); auto using readonly_py_str.
  exists ("<tr>" :: ys ++ ["</tr>"]). split; [|reflexivity].
  exists cells, header, xs, ys. repeat split; auto.
  clear -Hys Hcells. induction Hys as [|x y xs ys Hx _ IH]; [constructor|].
  apply Forall_cons in Hcells as [Hc Hcells]. constructor; auto.
  eapply cell_str_inv; eauto.
Qed.

(** The text [%s] makes of a value does not depend on the budget, so a
    cell has one element and a row one sequence of lines. *)
Lemma formats_unique k1 k2 st x t1 t2 :
  formats k1 st x t1 -> formats k2 st x t2 -> t1 = t2.
Proof.
  intros (a1 & Ha1 & H1) (a2 & Ha2 & H2).
  rewrite Ha1 in Ha2. injection Ha2 as <-.
  assert (E1 : py_str (k1 + k2) a1 st = py_str k1 a1 st).
  { apply extends_py_str; [lia|]. rewrite H1. discriminate. }
  assert (E2 : py_str (k1 + k2) a1 st = py_str k2 a1 st).
  { apply extends_py_str; [lia|]. rewrite H2. discriminate. }
  rewrite E1, H1, H2 in E2. now injection E2.
Qed.

Lemma cell_element_unique st x l1 l2 :
  cell_element st x l1 -> cell_element st x l2 -> l1 = l2.
Proof.
  intros (text & header & t1 & -> & [k1 H1] & ->)
         (text' & header' & t2 & E & [k2 H2] & ->).
  injection E as <- <-. now rewrite (formats_unique _ _ _ _ _ _ H1 H2).
Qed.

Lemma row_element_unique st R ls1 ls2 :
  row_element st R ls1 -> row_element st R ls2 -> ls1 = ls2.
Proof.
  intros (cells & header & xs & c1 & -> & Hi1 & Hc1 & ->)
         (cells' & header' & xs' & c2 & E & Hi2 & Hc2 & ->).
  injection E as <- <-. rewrite Hi1 in Hi2. injection Hi2 as <-.
  f_equal. f_equal. clear Hi1. revert c2 Hc2.
  induction Hc1 as [|x l1 xs c1 Hx _ IH]; intros c2 Hc2.
  - now apply Forall2_nil_inv_l in Hc2 as ->.
  - apply Forall2_cons_inv_l in Hc2 as (l2 & c2' & Hx2 & Hc2 & ->).
    f_equal; [eapply cell_element_unique; eauto|now apply IH].
Qed.



Lemma cell_row_list h l xs header :
  h !! l = Some xs ->
  Forall (fun x => isinstance_HTMLTableCell x = true) xs ->
  cell_row h (VRow (VList l) header).
Proof.
  intros Hl Hxs. exists (VList l), header, xs. repeat split; auto.
  unfold items, list_items. simpl. now rewrite Hl.
Qed.


(** * Further properties of the module *)

(** ** Constructors *)

(** X1.  What the row constructor does with its first argument: not
    indexable, [TypeError]; empty, [IndexError]; a first item that is a
    cell, a row that keeps the argument itself; otherwise a row with a new
    list in which every item is wrapped in a cell with the row's flag. *)
Theorem row_constructor_outcome : forall fuel cells header st,
  length (default [] (seq_items (heap st) cells)) < fuel ->
  HTMLTableRow.__init__ fuel cells header st =
  match seq_items (heap st) cells with
  | None => (Raise TypeError, st)
  | Some [] => (Raise IndexError, st)
  | Some (x :: xs) =>
      if isinstance_HTMLTableCell x then (Ok (VRow cells header), st)
      else (Ok (VRow (VList (length (heap st))) header),
            State (heap st ++ [wrap header (x :: xs)]) (g_table st))
  end.
Proof.
  intros fuel cells header st Hf.
  destruct (seq_items (heap st) cells) as [[|x xs]|] eqn:He.
  - unfold HTMLTableRow.__init__, bind.
    now rewrite py_getitem0_seq_items, He.
  - destruct (isinstance_HTMLTableCell x) eqn:Hx.
    + eapply row_init_cells; eauto.
    + now apply row_init_raw.
  - unfold HTMLTableRow.__init__, bind.
    now rewrite py_getitem0_seq_items, He.
Qed.

Lemma row_constructor_outcome_witness :
  HTMLTableRow.__init__ 3 (VStr "ab") (VBool true) module_state
  = (Ok (VRow (VList 2) (VBool true)),
     State [[]; []; [VCell (VStr "a") (VBool true);
                     VCell (VStr "b") (VBool true)]] None).
Proof.
  apply (row_constructor_outcome 3 (VStr "ab") (VBool true) module_state).
  simpl. lia.
Defined.

Lemma grows_py_loop {A} (body : A -> value -> M A) :
  (forall a x, grows (body a x)) ->
  forall fuel c a, grows (py_loop fuel c body a).
Proof.
  intros Hb. induction fuel as [|fuel IH]; intros c a st; simpl.
  - apply heap_ext_refl.
  - destruct (cursor_next (heap st) c) as [[x c']|]; [|apply heap_ext_refl].
    apply grows_bind; auto.
Qed.

Lemma grows_py_for {A} (body : A -> value -> M A) fuel v a :
  (forall a x, grows (body a x)) -> grows (py_for fuel v body a).
Proof.
  intros Hb. unfold py_for. apply grows_bind.
  - apply grows_readonly, readonly_lift.
  - intros c. now apply grows_py_loop.
Qed.

Lemma grows_alloc xs : grows (alloc xs).
Proof. intros st. apply heap_ext_alloc. Qed.

Lemma grows_table_init fuel rows header_row css_class :
  grows (HTMLTable.__init__ fuel rows header_row css_class).
Proof.
  unfold HTMLTable.__init__.
  apply grows_bind; [apply grows_readonly, readonly_py_getitem0|]. intros r0.
  apply grows_bind.
  - destruct (isinstance_HTMLTableRow r0);
      [apply grows_readonly, readonly_ret|].
    apply grows_bind; [|intros; apply grows_alloc].
    apply grows_py_for. intros acc row.
    apply grows_bind; [apply grows_row_init|].
    intros r. apply grows_readonly, readonly_ret.
  - intros rows'. apply grows_bind.
    + destruct header_row;
        try apply grows_row_init; apply grows_readonly, readonly_ret.
    + intros hr. apply grows_readonly, readonly_ret.
Qed.

(** X2.  Whatever they are given and however they end, the two constructors
    leave every list object that exists with the items it has, and the
    global [table] as it is: all they do to the state is to add lists. *)
Theorem constructors_only_add_lists :
  forall fuel cells header rows header_row css_class st l xs,
    heap st !! l = Some xs ->
    let st1 := snd (HTMLTableRow.__init__ fuel cells header st) in
    let st2 := snd (HTMLTable.__init__ fuel rows header_row css_class st) in
    heap st1 !! l = Some xs /\ g_table st1 = g_table st
    /\ heap st2 !! l = Some xs /\ g_table st2 = g_table st.
Proof.
  intros fuel cells header rows header_row css_class st l xs Hl st1 st2.
  pose proof (grows_row_init fuel cells header st) as H1.
  pose proof (grows_table_init fuel rows header_row css_class st) as H2.
  repeat split.
  - eapply heap_ext_lookup; eauto.
  - apply H1.
  - eapply heap_ext_lookup; eauto.
  - apply H2.
Qed.

Lemma constructors_only_add_lists_witness :
  let st := one_cell_state in
  let cells := [VCell (VStr "a") (VBool false)] in
  let st2 := snd (HTMLTable.__init__ 5 (VTuple [VList 2; VTuple []]) VNone
                    VNone st) in
  heap st2 !! 2 = Some cells /\ g_table st2 = None.
Proof.
  intros st cells st2.
  destruct (constructors_only_add_lists 5 VNone VNone
              (VTuple [VList 2; VTuple []]) VNone VNone st 2 cells eq_refl)
    as (_ & _ & H3 & H4).
  split; assumption.
Defined.

(** X3.  A row built from a list of cells, and a table built from a list
    of rows, keep that very list: what [add_cell] or [add_row] appends
    lands in the caller's list. *)
Theorem prebuilt_sequence_is_shared :
  forall fuel l x xs header css_class new st,
    heap st !! l = Some (x :: xs) ->
    (isinstance_HTMLTableCell x = true ->
     (row <- HTMLTableRow.__init__ fuel (VList l) header ;;
      _ <- HTMLTableRow.add_cell row new ;;
      ret row) st
     = (Ok (VRow (VList l) header),
        State (<[l := (x :: xs) ++ [new]]> (heap st)) (g_table st)))
    /\
    (isinstance_HTMLTableRow x = true ->
     (table <- HTMLTable.__init__ fuel (VList l) VNone css_class ;;
      _ <- HTMLTable.add_row table new ;;
      ret table) st
     = (Ok (VTable (VList l) VNone css_class),
        State (<[l := (x :: xs) ++ [new]]> (heap st)) (g_table st))).
Proof.
  intros fuel l x xs header css_class new st Hl.
  assert (Hs : seq_items (heap st) (VList l) = Some (x :: xs)).
  { simpl. unfold list_items. now rewrite Hl. }
  split.
  - intros Hx. unfold bind at 1.
    rewrite (row_init_cells fuel (VList l) header st x xs Hs Hx).
    unfold bind, HTMLTableRow.add_cell.
    now rewrite (py_append_spec l (x :: xs) new st Hl).
  - intros Hx. unfold bind at 1.
    unfold HTMLTable.__init__ at 1. unfold bind at 1.
    rewrite py_getitem0_seq_items, Hs, Hx. unfold bind, ret.
    unfold HTMLTable.add_row.
    now rewrite (py_append_spec l (x :: xs) new st Hl).
Qed.

Lemma prebuilt_sequence_is_shared_witness :
  let a := VCell (VStr "a") (VBool false) in
  let b := VCell (VStr "b") (VBool false) in
  let r := VRow (VList 2) (VBool false) in
  let st := State [[]; []; [a]; [r]] None in
  (row <- HTMLTableRow.__init__ 3 (VList 2) (VBool false) ;;
   _ <- HTMLTableRow.add_cell row b ;;
   ret row) st
  = (Ok r, State [[]; []; [a; b]; [r]] None)
  /\ (table <- HTMLTable.__init__ 3 (VList 3) VNone VNone ;;
      _ <- HTMLTable.add_row table r ;;
      ret table) st
     = (Ok (VTable (VList 3) VNone VNone),
        State [[]; []; [a]; [r; r]] None).
Proof.
  intros a b r st. split.
  - exact (proj1 (prebuilt_sequence_is_shared 3 2 a [] (VBool false) VNone b
                    st eq_refl) eq_refl).
  - exact (proj2 (prebuilt_sequence_is_shared 3 3 r [] (VBool false) VNone r
                    st eq_refl) eq_refl).
Defined.

(** X4.  A row built from raw values has a list of its own: what
    [add_cell] appends lands there, after the wrapped values, and the
    caller's list keeps the items it had. *)
Theorem raw_sequence_is_copied : forall fuel l x xs header new st,
  heap st !! l = Some (x :: xs) ->
  isinstance_HTMLTableCell x = false ->
  length (x :: xs) < fuel ->
  exists st',
    (row <- HTMLTableRow.__init__ fuel (VList l) header ;;
     _ <- HTMLTableRow.add_cell row new ;;
     ret row) st
    = (Ok (VRow (VList (length (heap st))) header), st')
    /\ heap st' !! l = Some (x :: xs)
    /\ heap st' !! length (heap st) = Some (wrap header (x :: xs) ++ [new]).
Proof.
  intros fuel l x xs header new st Hl Hx Hf.
  assert (Hs : seq_items (heap st) (VList l) = Some (x :: xs)).
  { simpl. unfold list_items. now rewrite Hl. }
  eexists. split; [|split].
  - unfold bind at 1.
    rewrite (row_init_raw fuel (VList l) header st x xs Hs Hx Hf).
    unfold bind, HTMLTableRow.add_cell.
    rewrite (py_append_spec (length (heap st)) (wrap header (x :: xs))).
    + reflexivity.
    + simpl. now rewrite lookup_app_r, Nat.sub_diag by lia.
  - simpl. rewrite list_lookup_insert_ne.
    + now apply lookup_app_l_Some.
    + apply lookup_lt_Some in Hl. lia.
  - simpl. apply list_lookup_insert_eq. rewrite length_app. simpl. lia.
Qed.

Lemma raw_sequence_is_copied_witness :
  exists st',
    (row <- HTMLTableRow.__init__ 3 (VList 2) (VBool false) ;;
     _ <- HTMLTableRow.add_cell row (VStr "z") ;;
     ret row) (State [[]; []; [VStr "a"]] None)
    = (Ok (VRow (VList 3) (VBool false)), st')
    /\ heap st' !! 2 = Some [VStr "a"]
    /\ heap st' !! 3 = Some (wrap (VBool false) [VStr "a"] ++ [VStr "z"]).
Proof.
  apply (raw_sequence_is_copied 3 2 (VStr "a") [] (VBool false) (VStr "z")
           (State [[]; []; [VStr "a"]] None)).
  - reflexivity.
  - reflexivity.
  - simpl. lia.
Defined.

(** ** Tables built from raw values *)

Lemma wraps_ext st st' h R xs :
  heap_ext st st' -> wraps st h R xs -> wraps st' h R xs.
Proof.
  intros Hext (l & -> & Hl). exists l. split; auto.
  eapply heap_ext_lookup; eauto.
Qed.

Lemma plain_not_cell x s :
  plain_text x = Some s -> isinstance_HTMLTableCell x = false.
Proof. destruct x; simpl; auto; discriminate. Qed.

(** The text of a row of wrapped plain values. *)
Lemma wraps_str st h R xs ts n :
  wraps st h R xs ->
  Forall2 (fun x s => plain_text x = Some s) xs ts ->
  length xs < S (S n) ->
  py_str (S (S (S n))) R st = (Ok (render_row h ts), st).
Proof.
  intros (l & -> & Hl) Hts Hn. unfold render_row.
  apply row_str_spec with (xs := wrap (VBool h) xs).
  - unfold items, list_items. simpl. now rewrite Hl.
  - unfold wrap. apply Forall2_fmap. eapply Forall2_impl; [exact Hts|].
    intros x s Hx.
    exact (cell_str_spec (S n) x (VBool h) s st (formats_plain n st x s Hx)).
  - unfold wrap. now rewrite length_fmap.
Qed.

Lemma mfold_app {A} (body : A -> value -> M A) xs ys a st :
  mfold body (xs ++ ys) a st
  = bind (mfold body xs a) (mfold body ys) st.
Proof.
  revert a st. induction xs as [|x xs IH]; intros a st; simpl; auto.
  unfold bind in IH |- *. destruct (body a x st) as [[a'| | |] st1]; auto.
Qed.

Lemma raw_row_ext fuel st st' r xs :
  heap_ext st st' -> raw_row fuel st r xs -> raw_row fuel st' r xs.
Proof.
  intros Hext (Hs & (x & xs' & -> & Hx) & Hf). repeat split; eauto.
  eapply heap_ext_seq_items; eauto.
Qed.

(** The comprehension of the table constructor over raw rows. *)
Lemma mfold_raw_rows fuel Rs XS :
  forall st acc,
    Forall2 (raw_row fuel st) Rs XS ->
    exists new st',
      mfold (fun acc row =>
               r <- HTMLTableRow.__init__ fuel row (VBool false) ;;
               ret (acc ++ [r])) Rs acc st
      = (Ok (acc ++ new), st')
      /\ heap_ext st st'
      /\ Forall2 (wraps st' false) new XS.
Proof.
  revert XS. induction Rs as [|r Rs IH]; intros XS st acc HF.
  - apply Forall2_nil_inv_l in HF as ->. exists [], st.
    rewrite app_nil_r. split; [reflexivity|].
    split; [apply heap_ext_refl|constructor].
  - apply Forall2_cons_inv_l in HF as (xs & XS' & Hr & HF & ->).
    pose proof Hr as (Hs & (x & xs' & -> & Hx) & Hf).
    pose proof (row_init_raw fuel r (VBool false) st x xs' Hs Hx Hf) as Hinit.
    set (st1 := State (heap st ++ [(fun c => VCell c (VBool false)) <$> x :: xs'])
                      (g_table st)) in *.
    assert (Hext1 : heap_ext st st1).
    { split; simpl; eauto. }
    destruct (IH XS' st1 (acc ++ [VRow (VList (length (heap st))) (VBool false)]))
      as (new & st' & Hm & Hext & Hw).
    { eapply Forall2_impl; [exact HF|]. intros r' xs0.
      now apply raw_row_ext. }
    exists (VRow (VList (length (heap st))) (VBool false) :: new), st'.
    split; [|split].
    + simpl. unfold bind at 1. unfold bind at 1. rewrite Hinit.
      unfold ret at 1. rewrite Hm. now rewrite <- app_assoc.
    + eapply heap_ext_trans; eauto.
    + constructor; auto. eapply wraps_ext; eauto.
      exists (length (heap st)). split; auto. subst st1. simpl.
      now rewrite lookup_app_r, Nat.sub_diag by lia.
Qed.

(** The table constructor's loop over its rows, as a loop over their
    snapshot: the rows it builds only add list objects. *)
Lemma table_rows_loop fuel rows Rs acc st :
  seq_items (heap st) rows = Some Rs ->
  Rs <> [] ->
  length Rs < fuel ->
  py_for fuel rows
    (fun acc row =>
       r <- HTMLTableRow.__init__ fuel row (VBool false) ;; ret (acc ++ [r]))
    acc st
  = mfold (fun acc row =>
             r <- HTMLTableRow.__init__ fuel row (VBool false) ;;
             ret (acc ++ [r])) Rs acc st.
Proof.
  intros Hs Hne Hf.
  apply (py_for_snapshot (fun st' => heap_ext st st')); auto.
  - intros st' Hext. apply seq_items_items.
    destruct Rs as [|r Rs]; [congruence|].
    eapply heap_ext_seq_items; eauto.
  - intros a x st' Hext. eapply heap_ext_trans; eauto.
    apply grows_bind; [apply grows_row_init|].
    intros y. apply grows_readonly, readonly_ret.
  - apply heap_ext_refl.
Qed.

(** X5.  A table built from a non-empty sequence of non-empty sequences of
    plain values ([str], [int], [bool], [None]), with a header that is
    [None] or such a sequence and a style class that is [None] or a string,
    is built and serializes to the expected markup: the opening tag, the
    header texts in [th] cells if there is a header, each row's texts in
    [td] cells, in order, and the closing tag. *)
Theorem table_of_plain_values :
  forall fuel st rows Rs XS TS header_row hts css_class,
    seq_items (heap st) rows = Some Rs ->
    Rs <> [] ->
    length Rs < fuel ->
    Forall2 (fun r xs => seq_items (heap st) r = Some xs
                         /\ xs <> [] /\ length xs < fuel) Rs XS ->
    Forall2 (Forall2 (fun x s => plain_text x = Some s)) XS TS ->
    header_texts st header_row hts fuel ->
    css_class = VNone \/ (exists c, css_class = VStr c) ->
    exists t st',
      HTMLTable.__init__ fuel rows header_row css_class st = (Ok t, st')
      /\ py_str (3 + fuel) t st'
         = (Ok (render_table css_class hts TS), st').
Proof.
  intros fuel st rows Rs XS TS hdr hts css Hs Hne Hf HRs HTS Hhdr Hcss.
  (* every row is a raw row *)
  assert (Hraw : Forall2 (raw_row fuel st) Rs XS).
  { clear -HRs HTS. revert TS HTS.
    induction HRs as [|r xs Rs XS (H1 & H2 & H3) _ IH]; intros TS HTS;
      [constructor|].
    apply Forall2_cons_inv_l in HTS as (ts & TS' & Hts & HTS & ->).
    constructor; eauto. repeat split; auto.
    destruct Hts as [|x s xs ts Hx _]; [congruence|].
    exists x, xs. split; auto. eapply plain_not_cell; eauto. }
  assert (Hr0 : exists r0 Rs0,
             Rs = r0 :: Rs0 /\ isinstance_HTMLTableRow r0 = false).
  { destruct HRs as [|r0 xs Rs0 XS' (H1 & _) _]; [congruence|].
    exists r0, Rs0. split; auto.
    destruct r0; simpl in H1; try discriminate; reflexivity. }
  destruct Hr0 as (r0 & Rs0 & ERs & Hr0).
  destruct (mfold_raw_rows fuel Rs XS st [] Hraw) as (new & st1 & Hm & Hext1 & Hw).
  simpl app in Hm.
  set (L := length (heap st1)).
  set (st2 := State (heap st1 ++ [new]) (g_table st1)).
  assert (Hext2 : heap_ext st1 st2) by (split; simpl; eauto).
  (* the header row *)
  assert (Hh : exists H st',
             match hdr with
             | VNone => ret VNone
             | VRow _ _ => ret hdr
             | _ => HTMLTableRow.__init__ fuel hdr (VBool true)
             end st2 = (Ok H, st')
             /\ heap_ext st2 st'
             /\ header_lines (2 + fuel) H st'
                = (Ok match hts with
                      | Some hs => [render_row true hs]
                      | None => []
                      end, st')).
  { destruct Hhdr as [[-> ->]|(hs & ts & Hhs & Hhne & Hhf & Hhts & ->)].
    - exists VNone, st2. split; [reflexivity|].
      split; [apply heap_ext_refl|reflexivity].
    - destruct hs as [|h hs]; [congruence|].
      assert (Hhs2 : seq_items (heap st2) hdr = Some (h :: hs)).
      { eapply heap_ext_seq_items; [|exact Hhs].
        eapply heap_ext_trans; eauto. }
      assert (Hh0 : isinstance_HTMLTableCell h = false).
      { apply Forall2_cons_inv_l in Hhts as (s & ? & Hp & _ & _).
        eapply plain_not_cell; eauto. }
      pose proof (row_init_raw fuel hdr (VBool true) st2 h hs Hhs2 Hh0 Hhf)
        as Hinit.
      eexists _, _. split; [|split].
      + destruct hdr; simpl in Hhs; try discriminate; exact Hinit.
      + split; simpl; eauto.
      + unfold header_lines, bind, py_bool. cbn [truthy].
        destruct fuel as [|fuel]; [simpl in Hhf; lia|].
        rewrite (wraps_str _ true _ (h :: hs) ts fuel); auto.
        eexists. split; [reflexivity|]. simpl.
        now rewrite lookup_app_r, Nat.sub_diag by lia. }
  destruct Hh as (H & st' & HH & Hext3 & Hlines).
  exists (VTable (VList L) H css), st'. split.
  - unfold HTMLTable.__init__. unfold bind at 1.
    rewrite py_getitem0_seq_items, Hs, ERs, Hr0.
    unfold bind at 1. unfold bind at 1.
    rewrite (table_rows_loop fuel rows Rs [] st Hs Hne Hf), Hm.
    unfold alloc at 1. fold L. fold st2.
    unfold bind. rewrite HH. reflexivity.
  - destruct fuel as [|fuel]; [lia|].
    apply (table_str_spec (2 + S fuel) (VList L) H css st'
             (class_tag css)
             match hts with
             | Some hs => [render_row true hs]
             | None => []
             end new (render_row false <$> TS)).
    + now apply open_tag_class_tag.
    + exact Hlines.
    + unfold items, list_items. simpl.
      rewrite (heap_ext_lookup st2 st' L new Hext3); auto.
      subst st2 L. simpl. now rewrite lookup_app_r, Nat.sub_diag by lia.
    + apply Forall2_fmap_r.
      assert (Hw' : Forall2 (wraps st' false) new XS).
      { eapply Forall2_impl; [exact Hw|]. intros R xs HR.
        eapply wraps_ext; [|exact HR]. eapply heap_ext_trans; eauto. }
      assert (Hlen : Forall (fun xs => length xs < S (S fuel)) XS).
      { clear -HRs. induction HRs as [|r xs Rs XS (_ & _ & H3) _ IH];
          constructor; auto; lia. }
      clear -Hw' HTS Hlen. revert TS HTS.
      induction Hw' as [|R xs new XS HR _ IH]; intros TS HTS.
      * apply Forall2_nil_inv_l in HTS as ->. constructor.
      * apply Forall2_cons_inv_l in HTS as (ts & TS' & Hts & HTS & ->).
        apply Forall_cons in Hlen as [Hl Hlen].
        constructor; auto.
        now apply (wraps_str st' false R xs ts fuel).
    + apply Forall2_length in Hw. apply Forall2_length in Hraw.
      simpl. lia.
Qed.

Lemma table_of_plain_values_witness :
  exists t st',
    HTMLTable.__init__ 3 (VList 4) (VList 5) (VStr "t") example_lists
    = (Ok t, st')
    /\ py_str 6 t st'
       = (Ok (render_table (VStr "t") (Some ["X"; "Y"])
                [["a"; "b"]; ["c"; "d"]]), st').
Proof.
  apply (table_of_plain_values 3 example_lists (VList 4)
           [VList 2; VList 3]
           [[VStr "a"; VStr "b"]; [VStr "c"; VStr "d"]]
           [["a"; "b"]; ["c"; "d"]] (VList 5) (Some ["X"; "Y"]) (VStr "t")).
  - reflexivity.
  - discriminate.
  - simpl. lia.
  - repeat constructor; simpl; try lia; discriminate.
  - repeat constructor.
  - right. exists [VStr "X"; VStr "Y"], ["X"; "Y"].
    repeat split; try reflexivity; try discriminate.
    + simpl. lia.
    + repeat constructor.
  - right. eexists. reflexivity.
Defined.

Lemma bad_row_ext st st' r e :
  heap_ext st st' -> bad_row st r e -> bad_row st' r e.
Proof.
  intros Hext [[H ->]|(H & -> & Hl)]; [left|right].
  - split; auto. destruct r; simpl in *; auto; discriminate.
  - split; [|split; auto].
    + destruct r; simpl in *; auto.
      specialize (Hl _ eq_refl). unfold list_items in *.
      destruct (heap st !! l) as [xs|] eqn:E.
      * now rewrite (heap_ext_lookup _ _ _ _ Hext E).
      * apply lookup_ge_None in E. lia.
    + intros l Hr. specialize (Hl l Hr).
      destruct Hext as [[new ->] _]. rewrite length_app. lia.
Qed.

Lemma row_init_bad fuel r header st e :
  bad_row st r e ->
  HTMLTableRow.__init__ fuel r header st = (Raise e, st).
Proof.
  intros [[H ->]|(H & -> & _)]; unfold HTMLTableRow.__init__, bind;
    now rewrite py_getitem0_seq_items, H.
Qed.

(** X6.  When the rows given to the table constructor are raw and one of
    them is empty or is not a sequence, the others before it being fine, the
    constructor raises [IndexError] or [TypeError] respectively, and no
    table is built. *)
Theorem table_constructor_bad_row :
  forall fuel st rows good XS r rest e header_row css_class,
    seq_items (heap st) rows = Some (good ++ r :: rest) ->
    length (good ++ r :: rest) < fuel ->
    Forall2 (raw_row fuel st) good XS ->
    bad_row st r e ->
    isinstance_HTMLTableRow r = false ->
    fst (HTMLTable.__init__ fuel rows header_row css_class st) = Raise e.
Proof.
  intros fuel st rows good XS r rest e hdr css Hs Hf Hgood Hbad Hr.
  assert (Hr0 : exists r0 Rs0, good ++ r :: rest = r0 :: Rs0
                               /\ isinstance_HTMLTableRow r0 = false).
  { destruct Hgood as [|g xs good XS (H1 & _) _]; simpl; eauto.
    eexists _, _. split; eauto.
    destruct g; simpl in H1; try discriminate; reflexivity. }
  destruct Hr0 as (r0 & Rs0 & ERs & Hr0).
  destruct (mfold_raw_rows fuel good XS st [] Hgood)
    as (new & st1 & Hm & Hext1 & _).
  unfold HTMLTable.__init__. unfold bind at 1.
  rewrite py_getitem0_seq_items, Hs, ERs, Hr0.
  unfold bind at 1. unfold bind at 1.
  rewrite (table_rows_loop fuel rows (good ++ r :: rest) [] st Hs); auto.
  - rewrite mfold_app. unfold bind at 1. rewrite Hm.
    simpl mfold. unfold bind at 1. unfold bind at 1.
    rewrite (row_init_bad fuel r (VBool false) st1 e); [reflexivity|].
    eapply bad_row_ext; eauto.
  - rewrite ERs. discriminate.
Qed.

Lemma table_constructor_bad_row_witness :
  fst (HTMLTable.__init__ 3 (VTuple [VStr "ab"; VTuple []]) VNone VNone
         module_state) = Raise IndexError.
Proof.
  apply (table_constructor_bad_row 3 module_state
           (VTuple [VStr "ab"; VTuple []]) [VStr "ab"]
           [chars "ab"] (VTuple []) [] IndexError VNone VNone).
  - reflexivity.
  - simpl. lia.
  - repeat constructor. eexists _, _. split; reflexivity.
  - right. repeat split; auto. discriminate.
  - reflexivity.
Defined.

(** X7.  A table constructor given something that cannot be indexed
    raises [TypeError] and changes nothing.  A single row object is such a
    thing, the class defining no [__getitem__]: the usage of the class
    docstring, [HTMLTable(rows)] with [rows] an [HTMLTableRow], ends so. *)
Theorem table_constructor_needs_sequence :
  forall fuel rows header_row css_class st,
    seq_items (heap st) rows = None ->
    HTMLTable.__init__ fuel rows header_row css_class st
    = (Raise TypeError, st).
Proof.
  intros fuel rows hdr css st H. unfold HTMLTable.__init__, bind.
  now rewrite py_getitem0_seq_items, H.
Qed.

Lemma table_constructor_needs_sequence_witness :
  let rows := VRow (VList 2) (VBool false) in
  HTMLTable.__init__ 3 rows VNone VNone one_cell_state
  = (Raise TypeError, one_cell_state).
Proof.
  intros rows.
  apply (table_constructor_needs_sequence 3 rows VNone VNone one_cell_state).
  reflexivity.
Defined.

(** ** Iterating over a row or a table *)

Lemma mfold_items xs : forall acc st,
  mfold (fun acc x => ret (acc ++ [x])) xs acc st = (Ok (acc ++ xs), st).
Proof.
  induction xs as [|x xs IH]; intros acc st; simpl.
  - now rewrite app_nil_r.
  - unfold bind, ret at 1. rewrite IH. now rewrite <- app_assoc.
Qed.

(** X8.  Iterating over a row yields the cells it holds at that moment, in
    order, and iterating over a table yields its rows, in order, without its
    header row; the iteration changes nothing, so it can be repeated. *)
Theorem iterating_yields_the_items :
  forall fuel inner header header_row css_class xs st,
    items (heap st) inner = Some xs ->
    length xs < fuel ->
    py_items fuel (VRow inner header) st = (Ok xs, st)
    /\ py_items fuel (VTable inner header_row css_class) st = (Ok xs, st).
Proof.
  intros fuel inner header hdr css xs st Hi Hf.
  assert (Hgen : forall v, items (heap st) v = Some xs ->
                           py_items fuel v st = (Ok xs, st)).
  { intros v Hv. unfold py_items. rewrite (py_for_readonly _ v xs); auto.
    - apply mfold_items.
    - intros a x. apply readonly_ret. }
  split; apply Hgen; exact Hi.
Qed.

Lemma iterating_yields_the_items_witness :
  let st := snd (example_table 5 (VStr "t") module_state) in
  py_items 3 (VTable (VList 8) (VRow (VList 9) (VBool true)) (VStr "t")) st
  = (Ok [VRow (VList 6) (VBool false); VRow (VList 7) (VBool false)], st).
Proof.
  intros st.
  apply (iterating_yields_the_items 3 (VList 8) VNone
           (VRow (VList 9) (VBool true)) (VStr "t")
           [VRow (VList 6) (VBool false); VRow (VList 7) (VBool false)] st).
  - reflexivity.
  - simpl. lia.
Defined.

(** ** Cells *)

(** X9.  A cell whose text is a tuple: the tuple is the argument list of
    the format, so with one item the cell shows that item, as the cell of
    the item itself does, and with any other number of items serializing the
    cell raises [TypeError]. *)
Theorem cell_with_tuple_text : forall fuel vs x header st,
  (length vs <> 1 ->
   py_str (S fuel) (VCell (VTuple vs) header) st = (Raise TypeError, st))
  /\ ((forall ws, x <> VTuple ws) ->
      py_str (S fuel) (VCell (VTuple [x]) header) st
      = py_str (S fuel) (VCell x header) st).
Proof.
  intros fuel vs x header st. cbn [py_str].
  unfold HTMLTableCell.__str__, py_format, bind, py_bool, lift. split.
  - intros Hlen.
    destruct vs as [|a [|b vs]]; simpl in Hlen; try lia;
      cbn [format_arg]; now destruct (truthy (heap st) header).
  - intros Hx.
    assert (Hfa : format_arg x = Ok x).
    { destruct x as [| | | |ws| | | | |]; simpl; auto.
      now contradiction (Hx ws). }
    cbn [format_arg]. now rewrite Hfa.
Qed.

Lemma cell_with_tuple_text_witness :
  py_str 3 (VCell (VTuple [VStr "a"; VStr "b"]) (VBool false)) module_state
  = (Raise TypeError, module_state)
  /\ py_str 3 (VCell (VTuple [VStr "a"]) (VBool false)) module_state
     = py_str 3 (VCell (VStr "a") (VBool false)) module_state.
Proof.
  destruct (cell_with_tuple_text 2 [VStr "a"; VStr "b"] (VStr "a")
              (VBool false) module_state) as [H1 H2].
  split.
  - apply H1. simpl. lia.
  - apply H2. discriminate.
Defined.

(** ** Appending, then serializing *)

Lemma plain_cell_str n c s st :
  plain_cell c s -> py_str (S (S n)) c st = (Ok s, st).
Proof.
  intros (v & b & t & -> & Hv & ->).
  exact (cell_str_spec (S n) v (VBool b) t st (formats_plain n st v t Hv)).
Qed.

(** X10.  A row whose list holds cells with plain texts serializes to
    [<tr>], their elements, [</tr>]; after [add_cell] with one more such
    cell it serializes to the same lines with the new cell's element last
    before [</tr>]. *)
Theorem add_cell_then_serialize : forall fuel l xs ss c sc header st,
  heap st !! l = Some xs ->
  Forall2 plain_cell xs ss ->
  plain_cell c sc ->
  S (length xs) < fuel ->
  let row := VRow (VList l) header in
  py_str (S fuel) row st = (Ok (join nl ("<tr>" :: ss ++ ["</tr>"])), st)
  /\ (_ <- HTMLTableRow.add_cell row c ;; py_str (S fuel) row) st
     = (Ok (join nl ("<tr>" :: (ss ++ [sc]) ++ ["</tr>"])),
        State (<[l := xs ++ [c]]> (heap st)) (g_table st)).
Proof.
  intros fuel l xs ss c sc header st Hl Hxs Hc Hf row.
  destruct fuel as [|[|n]]; try lia.
  assert (Hrow : forall st' ys ts,
             heap st' !! l = Some ys -> Forall2 plain_cell ys ts ->
             length ys < S (S n) ->
             py_str (S (S (S n))) row st'
             = (Ok (join nl ("<tr>" :: ts ++ ["</tr>"])), st')).
  { intros st' ys ts Hys Hts Hlen. apply row_str_spec with (xs := ys); auto.
    - unfold items, list_items. simpl. now rewrite Hys.
    - eapply Forall2_impl; [exact Hts|]. intros y t Hy.
      now apply plain_cell_str. }
  split.
  - apply Hrow with (ys := xs); auto. lia.
  - unfold bind, row, HTMLTableRow.add_cell.
    rewrite (py_append_spec l xs c st Hl). fold row.
    apply Hrow with (ys := xs ++ [c]).
    + simpl. apply list_lookup_insert_eq. now apply lookup_lt_Some in Hl.
    + apply Forall2_app; auto.
    + rewrite length_app. simpl. lia.
Qed.

Lemma add_cell_then_serialize_witness :
  let row := VRow (VList 2) (VBool false) in
  let b := VCell (VInt 7) (VBool true) in
  py_str 4 row one_cell_state
  = (Ok (join nl ("<tr>" :: ["<td>a</td>"] ++ ["</tr>"])), one_cell_state)
  /\ (_ <- HTMLTableRow.add_cell row b ;; py_str 4 row) one_cell_state
     = (Ok (join nl ("<tr>" :: (["<td>a</td>"] ++ ["<th>7</th>"])
                       ++ ["</tr>"])),
        State (<[2 := [VCell (VStr "a") (VBool false); b]]>
                 (heap one_cell_state)) (g_table one_cell_state)).
Proof.
  intros row b.
  apply (add_cell_then_serialize 3 2 [VCell (VStr "a") (VBool false)]
           ["<td>a</td>"] b "<th>7</th>" (VBool false) one_cell_state).
  - reflexivity.
  - repeat constructor. exists (VStr "a"), false, "a". auto.
  - exists (VInt 7), true, "7". auto.
  - simpl. lia.
Defined.

(** ** Pages *)

(** A page is its style block, if any, its content-type line and, when
    its table attribute is true, the text of the global [table]. *)
Lemma page_str_cases k table css enc st :
  css = VNone \/ (exists c, css = VStr c) ->
  py_str (S (S k)) (VPage table css (VStr enc)) st
  = if truthy (heap st) table then
      (tbl <- global_table ;;
       s <- py_str (S k) tbl ;;
       ret (join nl ((style_lines css ++ [meta_line enc]) ++ [s]))) st
    else (Ok (join nl (style_lines css ++ [meta_line enc])), st).
Proof.
  intros Hcss.
  change (py_str (S (S k)) (VPage table css (VStr enc)))
    with (HTMLPage.__str__ (py_str (S k)) (VPage table css (VStr enc))).
  unfold HTMLPage.__str__, py_format, py_bool, lift, ret, style_lines,
    global_table, bind.
  destruct Hcss as [->|[c ->]]; cbn [truthy format_arg].
  - change (py_str (S k) (VStr enc) st) with (Ok enc, st). cbv beta iota.
    destruct (truthy (heap st) table); [|reflexivity].
    destruct (g_table st) as [g|]; [|reflexivity].
    destruct (py_str (S k) g st) as [[s| | |] st']; reflexivity.
  - destruct (String.eqb c ""); cbn [negb];
      change (py_str (S k) (VStr c) st) with (Ok c, st); cbv beta iota;
      change (py_str (S k) (VStr enc) st) with (Ok enc, st); cbv beta iota;
      (destruct (truthy (heap st) table); [|reflexivity]);
      (destruct (g_table st) as [g|]; [|reflexivity]);
      destruct (py_str (S k) g st) as [[s| | |] st']; reflexivity.
Qed.

(** X11.  A page whose table attribute is false ([None]), with a style
    sheet that is [None] or a string and an encoding that is a string,
    serializes to its style block, if the style sheet is not empty, and its
    content-type line; it does not read the global [table], so it serializes
    whether or not that name is bound. *)
Theorem page_without_table : forall k table css enc st,
  truthy (heap st) table = false ->
  css = VNone \/ (exists c, css = VStr c) ->
  py_str (2 + k) (VPage table css (VStr enc)) st
  = (Ok (join nl (style_lines css ++ [meta_line enc])), st).
Proof.
  intros k table css enc st Ht Hcss.
  change (2 + k) with (S (S k)). rewrite page_str_cases by exact Hcss.
  now rewrite Ht.
Qed.

Lemma page_without_table_witness :
  py_str 2 (VPage VNone (VStr "td {color: red}") (VStr "latin-1"))
    module_state
  = (Ok (join nl (style_lines (VStr "td {color: red}")
                    ++ [meta_line "latin-1"])), module_state).
Proof.
  apply (page_without_table 0 VNone (VStr "td {color: red}") "latin-1"
           module_state).
  - reflexivity.
  - right. eexists. reflexivity.
Defined.

(** X12.  A page whose table attribute is true serializes the table that
    the global name [table] is bound to: its text follows the content-type
    line.  When the page's own table is the one bound to that name, as in
    the module's script, the page shows its own table; a page with another
    table in its attribute serializes to the same text. *)
Theorem page_with_bound_table : forall k table other css enc g sg st,
  truthy (heap st) table = true ->
  truthy (heap st) other = true ->
  g_table st = Some g ->
  py_str (S k) g st = (Ok sg, st) ->
  css = VNone \/ (exists c, css = VStr c) ->
  py_str (2 + k) (VPage table css (VStr enc)) st
  = (Ok (join nl (style_lines css ++ [meta_line enc; sg])), st)
  /\ py_str (2 + k) (VPage other css (VStr enc)) st
     = py_str (2 + k) (VPage table css (VStr enc)) st.
Proof.
  intros k table other css enc g sg st Ht Ho Hg Hsg Hcss.
  change (2 + k) with (S (S k)). rewrite !page_str_cases by exact Hcss.
  rewrite Ht, Ho. split; [|reflexivity].
  unfold bind, global_table, ret. rewrite Hg, Hsg.
  now rewrite <- app_assoc.
Qed.

Lemma page_with_bound_table_witness :
  let t := VTable (VTuple []) VNone VNone in
  let st := State [[]; []] (Some t) in
  py_str 3 (VPage t VNone (VStr "utf-8")) st
  = (Ok (join nl (style_lines VNone
                    ++ [meta_line "utf-8"; join nl ["<table>"; "</table>"]])),
     st).
Proof.
  intros t st.
  exact (proj1 (page_with_bound_table 1 t t VNone "utf-8" t
                  (join nl ["<table>"; "</table>"]) st
                  eq_refl eq_refl eq_refl eq_refl (or_introl eq_refl))).
Defined.

(** ** Saving a page *)

Lemma string_app_nil_r (s : string) : s +:+ "" = s.
Proof.
  induction s as [|a s IH]; [reflexivity|].
  change (String a (s +:+ "") = String a s). now rewrite IH.
Qed.

Lemma chunks_app s1 s2 : chunks (s1 +:+ s2) = chunks s1 ++ chunks s2.
Proof.
  induction s1 as [|a s1 IH]; [reflexivity|].
  change (chunks (String a (s1 +:+ s2))
          = String a EmptyString :: chunks s1 ++ chunks s2).
  change (chunks (String a (s1 +:+ s2)))
    with (String a EmptyString :: chunks (s1 +:+ s2)).
  now rewrite IH.
Qed.

(** Writing the characters of [s] through a writer that passes each of
    them on writes [s], and goes on with what follows. *)
Lemma write_chunks_through (w : writer) s rest :
  (forall done c, In c (chunks s) -> w done c = Some c) ->
  forall done data,
    write_chunks w done (chunks s ++ rest) data
    = write_chunks w (done ++ chunks s) rest (data +:+ s).
Proof.
  induction s as [|a s IH]; intros Hw done data.
  - simpl. now rewrite string_app_nil_r, app_nil_r.
  - change (chunks (String a s)) with (String a EmptyString :: chunks s) in *.
    simpl. rewrite Hw by (now left).
    rewrite IH.
    + now rewrite string_app_assoc, <- app_assoc.
    + intros d c Hc. apply Hw. now right.
Qed.

(** X13.  [save] opens the file, and so empties it, before it serializes
    the page: when the serialization raises, [save] raises the same
    exception, the named file is left empty whatever it held, and nothing
    else changes. *)
Theorem save_empties_the_file_first :
  forall p fuel table css encoding filename fs st w e,
    can_open p filename = true ->
    open_writer p encoding = inr w ->
    fst (py_str fuel (VPage table css encoding) st) = Raise e ->
    HTMLPage_save p fuel (VPage table css encoding) filename fs st
    = (NotSerialized (Raise e), <[filename := EmptyString]> fs, st).
Proof.
  intros p fuel table css encoding filename fs st w e Hopen Hw He.
  unfold HTMLPage_save. rewrite Hopen, Hw.
  pose proof (readonly_py_str fuel (VPage table css encoding) st) as Hro.
  destruct (py_str fuel (VPage table css encoding) st) as [o st'].
  simpl in He, Hro. now subst.
Qed.

Lemma save_empties_the_file_first_witness :
  let p := Platform (fun _ => true) (fun _ => None) in
  let page := VPage (VTable (VTuple []) VNone VNone) VNone VNone in
  let fs : files := <["test.html" := "old text"]> empty in
  HTMLPage_save p 3 page "test.html" fs module_state
  = (NotSerialized (Raise NameError), <["test.html" := EmptyString]> fs,
     module_state).
Proof.
  intros p page fs.
  apply (save_empties_the_file_first p 3 (VTable (VTuple []) VNone VNone)
           VNone VNone "test.html" fs module_state (fun _ chunk => Some chunk)
           NameError).
  - reflexivity.
  - reflexivity.
  - reflexivity.
Defined.

(** X14.  When the page serializes to [s] and the writer passes each
    character of [s] on as it is (as the plain file does that [save] gets
    for the encoding [None]), [save] returns, the named file holds exactly
    [s], every other file is as before and the interpreter state is
    unchanged. *)
Theorem save_writes_the_serialization :
  forall p fuel table css encoding filename fs st w s,
    can_open p filename = true ->
    open_writer p encoding = inr w ->
    fst (py_str fuel (VPage table css encoding) st) = Ok s ->
    (forall done c, In c (chunks s) -> w done c = Some c) ->
    exists fs',
      HTMLPage_save p fuel (VPage table css encoding) filename fs st
      = (Saved, fs', st)
      /\ fs' !! filename = Some s
      /\ forall other, other <> filename -> fs' !! other = fs !! other.
Proof.
  intros p fuel table css encoding filename fs st w s Hopen Hw Hs Hthrough.
  unfold HTMLPage_save. rewrite Hopen, Hw.
  pose proof (readonly_py_str fuel (VPage table css encoding) st) as Hro.
  destruct (py_str fuel (VPage table css encoding) st) as [o st'].
  simpl in Hs, Hro. subst o st'.
  rewrite <- (app_nil_r (chunks s)).
  rewrite (write_chunks_through w s [] Hthrough [] EmptyString).
  eexists. split; [reflexivity|]. split.
  - apply lookup_insert_eq.
  - intros other Hne. now rewrite !lookup_insert_ne by congruence.
Qed.

Lemma save_writes_the_serialization_witness :
  let p := Platform (fun _ => true) (fun _ => None) in
  let page := VPage VNone VNone VNone in
  exists fs',
    HTMLPage_save p 3 page "test.html" empty module_state
    = (Saved, fs', module_state)
    /\ fs' !! "test.html" = Some (meta_line "None")
    /\ forall other, other <> "test.html" ->
                     fs' !! other = (empty : files) !! other.
Proof.
  intros p page.
  apply (save_writes_the_serialization p 3 VNone VNone VNone "test.html"
           empty module_state (fun _ chunk => Some chunk)
           (meta_line "None")).
  - reflexivity.
  - reflexivity.
  - reflexivity.
  - reflexivity.
Defined.

(** X15.  When the stream writer rejects a character of the page's text,
    having passed on the ones before it, [save] raises the Unicode error
    and the file is left holding the text up to that character. *)
Theorem save_stops_at_rejected_character :
  forall p fuel table css encoding filename fs st w s1 c s2,
    can_open p filename = true ->
    open_writer p encoding = inr w ->
    fst (py_str fuel (VPage table css encoding) st)
    = Ok (s1 +:+ String c s2) ->
    (forall done ch, In ch (chunks s1) -> w done ch = Some ch) ->
    w (chunks s1) (String c EmptyString) = None ->
    exists fs',
      HTMLPage_save p fuel (VPage table css encoding) filename fs st
      = (Failed UnicodeError, fs', st)
      /\ fs' !! filename = Some s1
      /\ forall other, other <> filename -> fs' !! other = fs !! other.
Proof.
  intros p fuel table css encoding filename fs st w s1 c s2
    Hopen Hw Hs Hthrough Hrej.
  unfold HTMLPage_save. rewrite Hopen, Hw.
  pose proof (readonly_py_str fuel (VPage table css encoding) st) as Hro.
  destruct (py_str fuel (VPage table css encoding) st) as [o st'].
  simpl in Hs, Hro. subst o st'.
  rewrite chunks_app.
  rewrite (write_chunks_through w s1 _ Hthrough [] EmptyString).
  change (chunks (String c s2)) with (String c EmptyString :: chunks s2).
  simpl. rewrite Hrej.
  eexists. split; [reflexivity|]. split.
  - apply lookup_insert_eq.
  - intros other Hne. now rewrite !lookup_insert_ne by congruence.
Qed.

Lemma save_stops_at_rejected_character_witness :
  let ascii_only : writer :=
    fun _ chunk => if String.eqb chunk "~" then None else Some chunk in
  let p := Platform (fun _ => true) (fun _ => Some ascii_only) in
  let page := VPage VNone (VStr "a~b") (VStr "utf-8") in
  exists fs',
    HTMLPage_save p 3 page "test.html" empty module_state
    = (Failed UnicodeError, fs', module_state)
    /\ fs' !! "test.html"
       = Some ("<style type=" +:+ dq +:+ "text/css" +:+ dq +:+ ">" +:+ nl
                 +:+ "a")
    /\ forall other, other <> "test.html" ->
                     fs' !! other = (empty : files) !! other.
Proof.
  intros ascii_only p page.
  apply (save_stops_at_rejected_character p 3 VNone (VStr "a~b")
           (VStr "utf-8") "test.html" empty module_state ascii_only
           ("<style type=" +:+ dq +:+ "text/css" +:+ dq +:+ ">" +:+ nl
              +:+ "a")
           "~"%char
           ("b" +:+ nl +:+ "</style>" +:+ nl +:+ meta_line "utf-8")).
  - reflexivity.
  - reflexivity.
  - vm_compute. reflexivity.
  - intros done ch Hin. vm_compute in Hin.
    repeat (destruct Hin as [<-|Hin]; [reflexivity|]). destruct Hin.
  - reflexivity.
Defined.

(** A path of [save] on which the file was opened. *)
Ltac save_path :=
  split; [reflexivity|];
  split; [|discriminate];
  let other := fresh "other" in
  let Hne := fresh "Hne" in
  intros other Hne; simpl;
  rewrite ?lookup_insert_ne by congruence; reflexivity.

(** X16.  Whatever the page, the platform and the outcome, [save] touches
    no file but the one it is given the name of, and leaves the interpreter
    state as it is; when the file cannot be opened, no file changes at
    all. *)
Theorem save_touches_only_the_named_file :
  forall p fuel self filename fs st,
    let r := HTMLPage_save p fuel self filename fs st in
    snd r = st
    /\ (forall other, other <> filename -> snd (fst r) !! other = fs !! other)
    /\ (can_open p filename = false -> snd (fst r) = fs).
Proof.
  intros p fuel self filename fs st. cbv zeta.
  unfold HTMLPage_save.
  destruct self as [| | | | | | | | |table css encoding];
    try (split; [reflexivity|split; [reflexivity|reflexivity]]).
  destruct (can_open p filename) eqn:Hopen;
    [|split; [reflexivity|split; [reflexivity|reflexivity]]].
  destruct (open_writer p encoding) as [e|w].
  - save_path.
  - pose proof (readonly_py_str fuel (VPage table css encoding) st) as Hro.
    destruct (py_str fuel (VPage table css encoding) st) as [[s| | |] st'];
      simpl in Hro; subst st'; try save_path.
    destruct (write_chunks w [] (chunks s) EmptyString) as [data ok].
    save_path.
Qed.

Lemma save_touches_only_the_named_file_witness :
  let p := Platform (fun _ => true) (fun _ => None) in
  let fs : files := <["other.html" := "kept"]> empty in
  let r := HTMLPage_save p 3 (VPage VNone VNone (VStr "utf-8")) "test.html"
             fs module_state in
  fst (fst r) = Failed LookupError
  /\ snd (fst r) !! "other.html" = Some "kept".
Proof.
  intros p fs r. split; [reflexivity|].
  destruct (save_touches_only_the_named_file p 3
              (VPage VNone VNone (VStr "utf-8")) "test.html" fs module_state)
    as (_ & H & _).
  fold r in H. rewrite (H "other.html"); [reflexivity|discriminate].
Defined.

(** ** More on appending and on what the constructors keep *)

(** X17.  [add_cells] and [add_rows] given something that cannot be
    iterated over ([None], a number, a cell, a page) raise [TypeError] and
    append nothing. *)
Theorem append_many_needs_iterable :
  forall fuel cells header rows header_row css_class src st,
    items (heap st) src = None ->
    HTMLTableRow.add_cells fuel (VRow cells header) src st
    = (Raise TypeError, st)
    /\ HTMLTable.add_rows fuel (VTable rows header_row css_class) src st
       = (Raise TypeError, st).
Proof.
  intros fuel cells header rows hdr css src st H.
  split; simpl; now apply py_for_not_iterable.
Qed.

Lemma append_many_needs_iterable_witness :
  HTMLTableRow.add_cells 3 (VRow (VList 2) (VBool false)) (VInt 5)
    one_cell_state
  = (Raise TypeError, one_cell_state).
Proof.
  exact (proj1 (append_many_needs_iterable 3 (VList 2) (VBool false) VNone
                  VNone VNone (VInt 5) one_cell_state eq_refl)).
Defined.

(** The text of a table built from a list of row objects, the header row
    being one the constructor keeps as it is. *)
Lemma table_prebuilt_str fuel l R Rs XS TS H hl css st :
  heap st !! l = Some (R :: Rs) ->
  Forall2 (wraps st false) (R :: Rs) XS ->
  Forall2 (Forall2 (fun x s => plain_text x = Some s)) XS TS ->
  Forall (fun xs => length xs < 2 + fuel) XS ->
  length (R :: Rs) < 3 + fuel ->
  css = VNone \/ (exists c, css = VStr c) ->
  H = VNone \/ (exists c f, H = VRow c f) ->
  header_lines (3 + fuel) H st = (Ok hl, st) ->
  (t <- HTMLTable.__init__ fuel (VList l) H css ;; py_str (4 + fuel) t) st
  = (Ok (join nl (class_tag css :: hl ++ (render_row false <$> TS)
                    ++ ["</table>"])), st).
Proof.
  intros Hl Hw HTS Hlen Hn Hcss HH Hhl.
  assert (HR : isinstance_HTMLTableRow R = true).
  { apply Forall2_cons_inv_l in Hw as (? & ? & (l0 & -> & _) & _).
    reflexivity. }
  unfold bind at 1. unfold HTMLTable.__init__. unfold bind at 1.
  rewrite py_getitem0_seq_items. simpl seq_items. unfold list_items.
  rewrite Hl. simpl default. cbv iota beta. rewrite HR.
  assert (Hkeep : match H with
                  | VNone => ret VNone
                  | VRow _ _ => ret H
                  | _ => HTMLTableRow.__init__ fuel H (VBool true)
                  end = ret H).
  { destruct HH as [->|(c & f & ->)]; reflexivity. }
  rewrite Hkeep. unfold bind, ret.
  apply (table_str_spec (3 + fuel) (VList l) H css st (class_tag css) hl
           (R :: Rs) (render_row false <$> TS)); auto.
  - now apply open_tag_class_tag.
  - unfold items, list_items. simpl. now rewrite Hl.
  - apply Forall2_fmap_r. clear -Hw HTS Hlen. revert TS HTS.
    induction Hw as [|R0 xs Rs0 XS HR0 _ IH]; intros TS HTS.
    + apply Forall2_nil_inv_l in HTS as ->. constructor.
    + apply Forall2_cons_inv_l in HTS as (ts & TS' & Hts & HTS & ->).
      apply Forall_cons in Hlen as [Hl0 Hlen]. constructor; auto.
      now apply (wraps_str st false R0 xs ts fuel).
Qed.

(** X18.  A table built from a list of row objects, each made of wrapped
    plain values, and no header keeps that list and serializes to the
    expected markup with no header line: the docstring's "table from
    HTMLTableRow" with the rows in a list. *)
Theorem table_of_prebuilt_rows :
  forall fuel l R Rs XS TS css_class st,
    heap st !! l = Some (R :: Rs) ->
    Forall2 (wraps st false) (R :: Rs) XS ->
    Forall2 (Forall2 (fun x s => plain_text x = Some s)) XS TS ->
    Forall (fun xs => length xs < 2 + fuel) XS ->
    length (R :: Rs) < 3 + fuel ->
    css_class = VNone \/ (exists c, css_class = VStr c) ->
    (t <- HTMLTable.__init__ fuel (VList l) VNone css_class ;;
     py_str (4 + fuel) t) st
    = (Ok (render_table css_class None TS), st).
Proof.
  intros fuel l R Rs XS TS css st Hl Hw HTS Hlen Hn Hcss.
  apply (table_prebuilt_str fuel l R Rs XS TS VNone [] css st); auto.
Qed.

Lemma table_of_prebuilt_rows_witness :
  let st := snd (example_table 5 (VStr "t") module_state) in
  (t <- HTMLTable.__init__ 1 (VList 8) VNone VNone ;; py_str 5 t) st
  = (Ok (render_table VNone None [["a"; "b"]; ["c"; "d"]]), st).
Proof.
  intros st.
  apply (table_of_prebuilt_rows 1 8 (VRow (VList 6) (VBool false))
           [VRow (VList 7) (VBool false)]
           [[VStr "a"; VStr "b"]; [VStr "c"; VStr "d"]]
           [["a"; "b"]; ["c"; "d"]] VNone st).
  - reflexivity.
  - repeat constructor; eexists; (split; [reflexivity|reflexivity]).
  - repeat constructor.
  - repeat constructor; simpl; lia.
  - simpl. lia.
  - left. reflexivity.
Defined.

(** X19.  A table given a row object as its header row keeps that object
    and shows it as it was built: the header line has [th] cells only if
    the row was made with the header flag, and [td] cells otherwise; the
    table does not turn them into header cells. *)
Theorem header_row_object_shown_as_built :
  forall fuel l R Rs XS TS H h hs hts css_class st,
    heap st !! l = Some (R :: Rs) ->
    Forall2 (wraps st false) (R :: Rs) XS ->
    Forall2 (Forall2 (fun x s => plain_text x = Some s)) XS TS ->
    Forall (fun xs => length xs < 2 + fuel) XS ->
    length (R :: Rs) < 3 + fuel ->
    css_class = VNone \/ (exists c, css_class = VStr c) ->
    wraps st h H hs ->
    Forall2 (fun x s => plain_text x = Some s) hs hts ->
    length hs < 2 + fuel ->
    (t <- HTMLTable.__init__ fuel (VList l) H css_class ;;
     py_str (4 + fuel) t) st
    = (Ok (join nl (class_tag css_class :: render_row h hts
                      :: (render_row false <$> TS) ++ ["</table>"])), st).
Proof.
  intros fuel l R Rs XS TS H h hs hts css st Hl Hw HTS Hlen Hn Hcss
    HH Hhts Hhs.
  apply (table_prebuilt_str fuel l R Rs XS TS H [render_row h hts] css st);
    auto.
  - destruct HH as (l' & -> & _). right. eauto.
  - unfold header_lines, bind, py_bool.
    assert (Ht : truthy (heap st) H = true).
    { destruct HH as (l' & -> & _). reflexivity. }
    rewrite Ht. change (3 + fuel) with (S (S (S fuel))).
    now rewrite (wraps_str st h H hs hts fuel HH Hhts Hhs).
Qed.

Lemma header_row_object_shown_as_built_witness :
  let st := snd (example_table 5 (VStr "t") module_state) in
  (t <- HTMLTable.__init__ 1 (VList 8) (VRow (VList 6) (VBool false)) VNone ;;
   py_str 5 t) st
  = (Ok (join nl (class_tag VNone :: render_row false ["a"; "b"]
                    :: (render_row false <$> [["a"; "b"]; ["c"; "d"]])
                    ++ ["</table>"])), st).
Proof.
  intros st.
  apply (header_row_object_shown_as_built 1 8 (VRow (VList 6) (VBool false))
           [VRow (VList 7) (VBool false)]
           [[VStr "a"; VStr "b"]; [VStr "c"; VStr "d"]]
           [["a"; "b"]; ["c"; "d"]] (VRow (VList 6) (VBool false)) false
           [VStr "a"; VStr "b"] ["a"; "b"] VNone st).
  - reflexivity.
  - repeat constructor; eexists; (split; [reflexivity|reflexivity]).
  - repeat constructor.
  - repeat constructor; simpl; lia.
  - simpl. lia.
  - left. reflexivity.
  - eexists. split; reflexivity.
  - repeat constructor.
  - simpl. lia.
Defined.

(** X20.  Only the first item decides.  When it is a cell, the row keeps
    every item as it is, and an item that is not a cell is serialized by its
    own [str()], with no cell tag around it. *)
Theorem first_cell_keeps_the_rest :
  forall fuel l x xs ss header st,
    heap st !! l = Some (x :: xs) ->
    isinstance_HTMLTableCell x = true ->
    Forall2 (fun y s => py_str fuel y st = (Ok s, st)) (x :: xs) ss ->
    length (x :: xs) < fuel ->
    (row <- HTMLTableRow.__init__ fuel (VList l) header ;;
     py_str (S fuel) row) st
    = (Ok (join nl ("<tr>" :: ss ++ ["</tr>"])), st).
Proof.
  intros fuel l x xs ss header st Hl Hx Hss Hf.
  assert (Hs : seq_items (heap st) (VList l) = Some (x :: xs)).
  { simpl. unfold list_items. now rewrite Hl. }
  unfold bind. rewrite (row_init_cells fuel (VList l) header st x xs Hs Hx).
  apply row_str_spec with (xs := x :: xs); auto.
Qed.

Lemma first_cell_keeps_the_rest_witness :
  let st := State [[]; []; [VCell (VStr "a") (VBool false); VStr "b"]] None in
  (row <- HTMLTableRow.__init__ 3 (VList 2) (VBool false) ;; py_str 4 row) st
  = (Ok (join nl ("<tr>" :: ["<td>a</td>"; "b"] ++ ["</tr>"])), st).
Proof.
  intros st.
  apply (first_cell_keeps_the_rest 3 2 (VCell (VStr "a") (VBool false))
           [VStr "b"] ["<td>a</td>"; "b"] (VBool false) st).
  - reflexivity.
  - reflexivity.
  - repeat constructor.
  - simpl. lia.
Defined.

(** X21.  When the first item is not a cell, every item is wrapped in a new
    cell, the cells among them too: a later item that is a cell with a plain
    text shows as a cell element inside a cell element. *)
Theorem first_raw_wraps_the_rest :
  forall fuel x sx c sc h st,
    plain_text x = Some sx ->
    plain_cell c sc ->
    (v <- alloc [x; c] ;;
     row <- HTMLTableRow.__init__ (3 + fuel) v (VBool h) ;;
     py_str (4 + fuel) row) st
    = (Ok (join nl ["<tr>"; cell_tag h sx; cell_tag h sc; "</tr>"]),
       State (heap st ++ [[x; c]; wrap (VBool h) [x; c]]) (g_table st)).
Proof.
  intros fuel x sx c sc h st Hx Hc.
  unfold bind at 1. unfold alloc at 1.
  set (st1 := State (heap st ++ [[x; c]]) (g_table st)).
  assert (Hs : seq_items (heap st1) (VList (length (heap st))) = Some [x; c]).
  { simpl. unfold list_items.
    now rewrite lookup_app_r, Nat.sub_diag by lia. }
  unfold bind at 1.
  rewrite (row_init_raw (3 + fuel) _ (VBool h) st1 x [c] Hs
             (plain_not_cell x sx Hx)) by (simpl; lia).
  set (st2 := State (heap st1 ++ [_]) (g_table st1)).
  assert (Hst2 : st2 = State (heap st ++ [[x; c]; wrap (VBool h) [x; c]])
                             (g_table st)).
  { subst st2 st1. simpl. now rewrite <- app_assoc. }
  rewrite <- Hst2.
  apply (row_str_spec (3 + fuel) _ (VBool h) st2 (wrap (VBool h) [x; c])
           [cell_tag h sx; cell_tag h sc]).
  - unfold items, list_items. subst st2. simpl.
    now rewrite lookup_app_r, Nat.sub_diag by lia.
  - repeat constructor.
    + exact (cell_str_spec (2 + fuel) x (VBool h) sx st2
               (formats_plain _ st2 x sx Hx)).
    + apply (cell_str_spec (2 + fuel) c (VBool h) sc st2).
      exists c. split.
      * destruct Hc as (v & b & t & -> & _). reflexivity.
      * now apply plain_cell_str.
  - simpl. lia.
Qed.

Lemma first_raw_wraps_the_rest_witness :
  (v <- alloc [VStr "a"; VCell (VStr "b") (VBool true)] ;;
   row <- HTMLTableRow.__init__ 3 v (VBool false) ;;
   py_str 4 row) module_state
  = (Ok (join nl ["<tr>"; cell_tag false "a";
                  cell_tag false (cell_tag true "b"); "</tr>"]),
     State (heap module_state
              ++ [[VStr "a"; VCell (VStr "b") (VBool true)];
                  wrap (VBool false)
                    [VStr "a"; VCell (VStr "b") (VBool true)]])
           (g_table module_state)).
Proof.
  apply (first_raw_wraps_the_rest 0 (VStr "a") "a"
           (VCell (VStr "b") (VBool true)) (cell_tag true "b") false
           module_state).
  - reflexivity.
  - exists (VStr "b"), true, "b". auto.
Defined.

(** ** Appending a container to itself *)

Lemma py_iter_from_start v l i : py_iter v = Ok (CList l i) -> i = 0.
Proof.
  induction v; simpl; intros Hv; try discriminate; auto.
  now injection Hv as _ <-.
Qed.

(** A loop over a list that appends to that list what it reads never gets
    to the end of it. *)
Lemma self_append_loop l : forall fuel i st,
  i < length (list_items (heap st) l) ->
  fst (py_loop fuel (CList l i) (fun _ x => py_append (VList l) x) tt st)
  = OutOfFuel.
Proof.
  induction fuel as [|fuel IH]; intros i st Hi; [reflexivity|].
  simpl. destruct (list_items (heap st) l !! i) as [x|] eqn:Hx.
  - unfold bind, py_append. apply IH. simpl.
    assert (Hl : l < length (heap st)).
    { unfold list_items in Hi.
      destruct (heap st !! l) as [ys|] eqn:E; [|simpl in Hi; lia].
      now apply lookup_lt_Some in E. }
    unfold list_items at 1. rewrite list_lookup_insert_eq by exact Hl.
    simpl. rewrite length_app. simpl. lia.
  - apply lookup_ge_None in Hx. lia.
Qed.

(** X22.  [add_cells] given the row's own list of cells, or the row
    itself, and [add_rows] given the table's own list of rows, or the table
    itself, do not end when the list is not empty: the loop reads what it
    has just appended, so no budget is enough. *)
Theorem appending_a_container_to_itself_never_ends :
  forall fuel l x xs header header_row css_class src st,
    heap st !! l = Some (x :: xs) ->
    reads_list src = Some l ->
    fst (HTMLTableRow.add_cells fuel (VRow (VList l) header) src st)
    = OutOfFuel
    /\ fst (HTMLTable.add_rows fuel (VTable (VList l) header_row css_class)
              src st)
       = OutOfFuel.
Proof.
  intros fuel l x xs header hdr css src st Hl Hsrc.
  assert (Hit : py_iter src = Ok (CList l 0)).
  { unfold reads_list in Hsrc.
    destruct (py_iter src) as [[l' i|]| | |] eqn:E; try discriminate.
    injection Hsrc as ->. now rewrite (py_iter_from_start src l i E). }
  assert (Hloop : fst (py_for fuel src (fun _ c => py_append (VList l) c) tt st)
                  = OutOfFuel).
  { unfold py_for, bind, lift. rewrite Hit. apply self_append_loop.
    unfold list_items. rewrite Hl. simpl. lia. }
  split; exact Hloop.
Qed.

Lemma appending_a_container_to_itself_never_ends_witness :
  let row := VRow (VList 2) (VBool false) in
  fst (HTMLTableRow.add_cells 1000 row row one_cell_state) = OutOfFuel.
Proof.
  intros row.
  exact (proj1 (appending_a_container_to_itself_never_ends 1000 2
                  (VCell (VStr "a") (VBool false)) [] (VBool false) VNone
                  VNone row one_cell_state eq_refl eq_refl)).
Defined.
